(** * Product comparison pipeline (eccc.py): model and verification

    The program queries two product-search providers, merges the two
    result lists, ranks them by rating and renders a textual summary.
    This development embeds the Python code shallowly:

    - Python floats are IEEE binary64 numbers, i.e. Rocq's primitive
      floats, compared with [PrimFloat.ltb], [PrimFloat.leb] and
      [PrimFloat.eqb] (so NaN is unordered, as in Python);
    - [sorted] is the algorithm of CPython's [list.sort], so that the
      model also says what the program returns when a rating is NaN;
    - JSON documents are values of [pyval];
    - a product is a dict with the keys title, price, rating and link,
      each of which may be absent;
    - exceptions are an explicit result type, and the network, the
      console and the user interface are a reader/writer monad over a
      [world] and a list of [event]s. *)

From Stdlib Require Import List String Ascii ZArith Lia Bool Floats.
From Stdlib Require Import DecimalString Permutation Sorted.
Import ListNotations.

Set Warnings "-inexact-float,-register-all".
Local Open Scope string_scope.

(** ** Exceptions and fallible results *)

Inductive exn : Type :=
| TypeError
| ValueError
| AttributeError
| KeyError
| OverflowError
| JSONDecodeError
| ConnectionError
| Timeout
| GraphRecursionError.

Inductive res (A : Type) : Type :=
| Ok (a : A)
| Raise (e : exn).

Arguments Ok {A} a.
Arguments Raise {A} e.

Definition res_bind {A B : Type} (r : res A) (k : A -> res B) : res B :=
  match r with
  | Ok a => k a
  | Raise e => Raise e
  end.

Declare Scope res_scope.
Delimit Scope res_scope with res.
Notation "x <- r ;; k" := (res_bind r (fun x => k))
  (at level 61, r at next level, right associativity) : res_scope.

(** [for x in xs: acc.append(f x)], stopping at the first exception. *)
Fixpoint res_map {A B : Type} (f : A -> res B) (xs : list A) : res (list B) :=
  match xs with
  | [] => Ok []
  | x :: xs' =>
      (y <- f x ;; ys <- res_map f xs' ;; Ok (y :: ys))%res
  end.

(** ** Python values *)

(** What [json.loads] can return; a JSON object is kept as the list of
    its entries, looked up from the left. *)
Inductive pyval : Type :=
| PNone
| PBool (b : bool)
| PInt (z : Z)
| PFloat (f : float)
| PStr (s : string)
| PList (l : list pyval)
| PDict (kvs : list (string * pyval)).

Fixpoint assoc {A : Type} (k : string) (kvs : list (string * A)) : option A :=
  match kvs with
  | [] => None
  | (k', v) :: rest => if String.eqb k k' then Some v else assoc k rest
  end.

(** Truth value of an object, as tested by [or] and [if]. *)
Definition py_truthy (v : pyval) : bool :=
  match v with
  | PNone => false
  | PBool b => b
  | PInt z => negb (Z.eqb z 0)
  | PFloat f => negb (PrimFloat.eqb f 0%float)
  | PStr s => negb (String.eqb s "")
  | PList l => match l with [] => false | _ => true end
  | PDict kvs => match kvs with [] => false | _ => true end
  end.

(** [a or b] *)
Definition py_or (a b : pyval) : pyval :=
  if py_truthy a then a else b.

Definition dict_get (kvs : list (string * pyval)) (k : string) (default : pyval)
  : pyval :=
  match assoc k kvs with
  | Some v => v
  | None => default
  end.

(** [d.get(k, default)]: only a dict has the method. *)
Definition py_get (d : pyval) (k : string) (default : pyval) : res pyval :=
  match d with
  | PDict kvs => Ok (dict_get kvs k default)
  | _ => Raise AttributeError
  end.

(** The items visited by [for x in v[:5]].  A list gives its first five
    elements; a string gives one-character strings (the text is kept as
    its UTF-8 bytes, so the count may differ from Python's for non-ASCII
    text; the program only calls [.get] on such an item, which raises);
    nothing else a JSON document holds can be sliced (for a dict the
    exception is TypeError up to Python 3.11 and KeyError from 3.12 on,
    where a slice is hashable; the clients catch either). *)
Definition py_slice5 (v : pyval) : res (list pyval) :=
  match v with
  | PList l => Ok (firstn 5 l)
  | PStr s =>
      Ok (map (fun c => PStr (String c EmptyString))
              (firstn 5 (list_ascii_of_string s)))
  | _ => Raise TypeError
  end.

(** The interpreter's conversions between text and floats (and the
    [repr] of containers) are not part of the program; the model is
    parametric in them. *)
Record PyRuntime : Type := mkRuntime {
  float_of_str : string -> option float;   (* [float(s)], [None]: ValueError *)
  repr_float : float -> string;            (* [str(x)] for a float *)
  repr_container : pyval -> string         (* [str(x)] for a list or dict *)
}.

(** [float(n)] for an integer: correctly rounded, OverflowError when the
    result would not be finite. *)
Definition float_of_int (z : Z) : res float :=
  match binary_normalize prec emax z 0 false with
  | S754_infinity _ => Raise OverflowError
  | sf => Ok (SF2Prim sf)
  end.

(** [float(v)] *)
Definition py_float (rt : PyRuntime) (v : pyval) : res float :=
  match v with
  | PNone => Raise TypeError
  | PBool b => Ok (if b then 1%float else 0%float)
  | PInt z => float_of_int z
  | PFloat f => Ok f
  | PStr s =>
      match float_of_str rt s with
      | Some f => Ok f
      | None => Raise ValueError
      end
  | PList _ => Raise TypeError
  | PDict _ => Raise TypeError
  end.

Definition string_of_Z (z : Z) : string :=
  NilZero.string_of_int (Z.to_int z).

Definition string_of_nat (n : nat) : string :=
  NilZero.string_of_uint (Nat.to_uint n).

(** [str(v)], the text an f-string substitutes for [{v}]. *)
Definition py_str (rt : PyRuntime) (v : pyval) : string :=
  match v with
  | PNone => "None"
  | PBool true => "True"
  | PBool false => "False"
  | PInt z => string_of_Z z
  | PFloat f => repr_float rt f
  | PStr s => s
  | PList _ => repr_container rt v
  | PDict _ => repr_container rt v
  end.

(** ** Products and the pipeline state *)

(** A product dict.  The program only ever touches the four keys below;
    [None] means the key is absent from the dict.  A present title, price
    or link may still hold Python's [None] (that is [Some PNone]).  A
    rating, where present, is a float: both clients store the result of
    [float(...)] and the fallback lists hold float literals.  Dicts whose
    rating is of another type, on which the comparison of the sort keys
    could raise TypeError, are outside the model. *)
Record product : Type := mkProduct {
  title : option pyval;
  price : option pyval;
  rating : option float;
  link : option pyval
}.

(** The dict display [{"title": t, "price": p, "rating": r, "link": l}]. *)
Definition product_dict (t p : pyval) (r : float) (l : pyval) : product :=
  mkProduct (Some t) (Some p) (Some r) (Some l).

(** [p[k]] raises KeyError on an absent key. *)
Definition getitem {A : Type} (field : option A) : res A :=
  match field with
  | Some v => Ok v
  | None => Raise KeyError
  end.

(** [x.get("rating", 0.0)], the sort key. *)
Definition rating_key (x : product) : float :=
  match rating x with
  | Some r => r
  | None => 0%float
  end.

Definition has_all_keys (p : product) : bool :=
  match title p, price p, rating p, link p with
  | Some _, Some _, Some _, Some _ => true
  | _, _, _, _ => false
  end.

(** [ProductSearchState]: [user_input] is required, the other keys are
    absent ([None]) until a stage writes them. *)
Record ProductSearchState : Type := mkState {
  user_input : string;
  amazon_products : option (list product);
  google_products : option (list product);
  ranked_products : option (list product);
  output_summary : option string
}.

(** A node returns a partial dict: the keys it writes, with their values. *)
Inductive write : Type :=
| W_user_input (s : string)
| W_amazon_products (l : list product)
| W_google_products (l : list product)
| W_ranked_products (l : list product)
| W_output_summary (s : string).

Definition update : Type := list write.

Inductive field : Type :=
| F_user_input
| F_amazon_products
| F_google_products
| F_ranked_products
| F_output_summary.

Definition written_field (w : write) : field :=
  match w with
  | W_user_input _ => F_user_input
  | W_amazon_products _ => F_amazon_products
  | W_google_products _ => F_google_products
  | W_ranked_products _ => F_ranked_products
  | W_output_summary _ => F_output_summary
  end.

Definition written_fields (u : update) : list field := map written_field u.

Definition apply_write (st : ProductSearchState) (w : write) : ProductSearchState :=
  match w with
  | W_user_input s =>
      mkState s (amazon_products st) (google_products st)
              (ranked_products st) (output_summary st)
  | W_amazon_products l =>
      mkState (user_input st) (Some l) (google_products st)
              (ranked_products st) (output_summary st)
  | W_google_products l =>
      mkState (user_input st) (amazon_products st) (Some l)
              (ranked_products st) (output_summary st)
  | W_ranked_products l =>
      mkState (user_input st) (amazon_products st) (google_products st)
              (Some l) (output_summary st)
  | W_output_summary s =>
      mkState (user_input st) (amazon_products st) (google_products st)
              (ranked_products st) (Some s)
  end.

Definition apply_update (st : ProductSearchState) (u : update) : ProductSearchState :=
  fold_left apply_write u st.

(** ** The outside world: configuration, network, console, user interface *)

Record request : Type := mkRequest {
  url : string;
  headers : list (string * option string);
  params : list (string * option string);
  timeout : Z
}.

Record response : Type := mkResponse {
  status_code : Z;
  json : res pyval          (* [response.json()], may raise *)
}.

(** The environment variables read at start-up, and the network as seen
    through [requests.get]: it either raises or hands back a response. *)
Record world : Type := mkWorld {
  RAPIDAPI_KEY : option string;
  SERPAPI_KEY : option string;
  requests_get : request -> res response
}.

Inductive event : Type :=
| EvHttpGet (r : request)            (* one outbound request *)
| EvPrint (prefix : string) (e : exn) (* [print(f"{prefix}{e}")] *)
| EvNode (name : string)             (* the graph starts a node *)
| EvTitle (s : string)               (* st.title *)
| EvTextInput (label : string)       (* st.text_input *)
| EvButton (label : string)          (* st.button *)
| EvSubheader (s : string)           (* st.subheader *)
| EvMarkdown (s : string)            (* st.markdown *)
| EvWarning (s : string).            (* st.warning *)

(** Computations that read the world, may raise, and log their effects. *)
Definition M (A : Type) : Type := world -> res A * list event.

Definition ret {A : Type} (a : A) : M A := fun _ => (Ok a, []).

Definition raise {A : Type} (e : exn) : M A := fun _ => (Raise e, []).

Definition bind {A B : Type} (m : M A) (k : A -> M B) : M B :=
  fun w =>
    match m w with
    | (Ok a, t1) => let (r, t2) := k a w in (r, (t1 ++ t2)%list)
    | (Raise e, t1) => (Raise e, t1)
    end.

Definition lift {A : Type} (r : res A) : M A := fun _ => (r, []).

Definition emit (ev : event) : M unit := fun _ => (Ok tt, [ev]).

Definition ask : M world := fun w => (Ok w, []).

Definition http_get (req : request) : M response :=
  fun w => (requests_get w req, [EvHttpGet req]).

(** [try: body  except Exception as e: handler e] *)
Definition try_except {A : Type} (body : M A) (handler : exn -> M A) : M A :=
  fun w =>
    match body w with
    | (Ok a, t1) => (Ok a, t1)
    | (Raise e, t1) => let (r, t2) := handler e w in (r, (t1 ++ t2)%list)
    end.

Declare Scope M_scope.
Delimit Scope M_scope with M.
Notation "x <- m ;; k" := (bind m (fun x => k))
  (at level 61, m at next level, right associativity) : M_scope.
Notation "m ;; k" := (bind m (fun _ => k))
  (at level 61, right associativity) : M_scope.

(** ** Provider clients *)

Definition fallback_amazon : list product :=
  [ product_dict (PStr "Fallback Product A") (PStr "₹50,000") 4.3%float
                 (PStr "https://amazon.in/fallback-a");
    product_dict (PStr "Fallback Product B") (PStr "₹45,000") 4.1%float
                 (PStr "https://amazon.in/fallback-b") ].

Definition fallback_google : list product :=
  [ product_dict (PStr "Fallback Google Product A") (PStr "₹48,000") 4.0%float
                 (PStr "https://google.com/fallback-a");
    product_dict (PStr "Fallback Google Product B") (PStr "₹52,000") 4.2%float
                 (PStr "https://google.com/fallback-b") ].

(** [products if products else fallback] *)
Definition or_fallback (products fallback : list product) : list product :=
  match products with
  | [] => fallback
  | _ => products
  end.

Definition amazon_request (w : world) (query : string) : request :=
  mkRequest "https://real-time-amazon-data.p.rapidapi.com/search"
    [ ("X-RapidAPI-Key", RAPIDAPI_KEY w);
      ("X-RapidAPI-Host", Some "real-time-amazon-data.p.rapidapi.com") ]
    [ ("country", Some "IN"); ("query", Some query); ("page", Some "1");
      ("sort_by", Some "RELEVANCE"); ("product_condition", Some "ALL") ]
    10.

Definition google_request (w : world) (query : string) : request :=
  mkRequest "https://serpapi.com/search.json"
    []
    [ ("q", Some query); ("engine", Some "google_shopping"); ("hl", Some "en");
      ("gl", Some "in"); ("api_key", SERPAPI_KEY w) ]
    10.

(** The body of the loop in [search_amazon_products]: one entry [p] of the
    response becomes one product dict. *)
Definition amazon_record (rt : PyRuntime) (p : pyval) : res product :=
  (t <- py_get p "product_title" PNone ;;
   pr <- py_get p "product_price" PNone ;;
   r0 <- py_get p "product_star_rating" (PStr "0") ;;
   r <- py_float rt (py_or r0 (PInt 0)) ;;
   l0 <- py_get p "product_url" PNone ;;
   Ok (product_dict t pr r (py_or l0 (PStr "Link not available"))))%res.

(** [data.get("data", {}).get("products", [])[:5]] and the loop over it. *)
Definition amazon_parse (rt : PyRuntime) (data : pyval) : res (list product) :=
  (d <- py_get data "data" (PDict []) ;;
   ps <- py_get d "products" (PList []) ;;
   items <- py_slice5 ps ;;
   res_map (amazon_record rt) items)%res.

(** The [@tool] wrapper is taken to pass a call through to the function. *)
Definition search_amazon_products (rt : PyRuntime) (query : string)
  : M (list product) :=
  try_except
    (w <- ask ;;
     resp <- http_get (amazon_request w query) ;;
     if Z.eqb (status_code resp) 200 then
       data <- lift (json resp) ;;
       products <- lift (amazon_parse rt data) ;;
       ret (or_fallback products fallback_amazon)
     else
       ret fallback_amazon)%M
    (fun e => emit (EvPrint "[Amazon Error] " e) ;; ret fallback_amazon)%M.

Definition google_record (rt : PyRuntime) (item : pyval) : res product :=
  (t <- py_get item "title" PNone ;;
   pr <- py_get item "price" (PStr "N/A") ;;
   r0 <- py_get item "rating" (PFloat 0%float) ;;
   r <- py_float rt r0 ;;
   l <- py_get item "link" PNone ;;
   Ok (product_dict t pr r l))%res.

Definition google_parse (rt : PyRuntime) (data : pyval) : res (list product) :=
  (rs <- py_get data "shopping_results" (PList []) ;;
   items <- py_slice5 rs ;;
   res_map (google_record rt) items)%res.

Definition search_google_shopping (rt : PyRuntime) (query : string)
  : M (list product) :=
  try_except
    (w <- ask ;;
     resp <- http_get (google_request w query) ;;
     products <-
       (if Z.eqb (status_code resp) 200 then
          data <- lift (json resp) ;;
          lift (google_parse rt data)
        else ret []) ;;
     ret (or_fallback products fallback_google))%M
    (fun e => emit (EvPrint "[Google Shopping Error] " e) ;; ret fallback_google)%M.

(** ** Ranking and the summary *)

Section Sorting.
Context {A : Type} (key : A -> float).

(** [sorted(l, key=key, reverse=True)], as CPython's [list.sort]
    (listobject.c, version 3.11) computes it.  The keys are compared with
    [<] only.  The list is reversed, sorted into ascending order and
    reversed again; when [<] orders the keys, elements whose keys tie
    thereby keep their original order.  The ascending sort takes the run
    at the head of the list (the longest prefix that never goes down, or
    the longest prefix that goes strictly down, turned around) and puts
    every further element in its place by binary search in the part
    sorted so far.  This is the whole of the algorithm for a list of
    fewer than 64 elements (the two clients return at most ten products
    together); a longer list is cut into such pieces which are merged,
    with the same result whenever [<] orders the keys, that is when no
    key is NaN. *)
Definition key_lt (x y : A) : bool := PrimFloat.ltb (key x) (key y).

Fixpoint take_descending (prev : A) (l : list A) : list A * list A :=
  match l with
  | [] => ([], [])
  | y :: tl =>
      if key_lt y prev then
        let (d, rest) := take_descending y tl in (y :: d, rest)
      else ([], l)
  end.

Fixpoint take_ascending (prev : A) (l : list A) : list A * list A :=
  match l with
  | [] => ([], [])
  | y :: tl =>
      if key_lt y prev then ([], l)
      else let (a, rest) := take_ascending y tl in (y :: a, rest)
  end.

(** [count_run], followed by the reversal of a descending run: the run at
    the head of [l], in ascending order, and what follows it. *)
Definition count_run (l : list A) : list A * list A :=
  match l with
  | [] => ([], [])
  | [x] => ([x], [])
  | x0 :: x1 :: tl =>
      if key_lt x1 x0 then
        let (d, rest) := take_descending x1 tl in (rev (x0 :: x1 :: d), rest)
      else
        let (a, rest) := take_ascending x1 tl in (x0 :: x1 :: a, rest)
  end.

(** The loop of [binarysort] that looks for the place of [pivot] in
    [a[l:r]]; [fuel] bounds its iterations. *)
Fixpoint bisect (fuel : nat) (pivot : A) (a : list A) (l r : nat) : nat :=
  match fuel with
  | O => l
  | S fuel' =>
      if Nat.ltb l r then
        let p := l + (r - l) / 2 in
        match nth_error a p with
        | Some y =>
            if key_lt pivot y then bisect fuel' pivot a l p
            else bisect fuel' pivot a (S p) r
        | None => l
        end
      else l
  end.

Definition binary_insert (a : list A) (pivot : A) : list A :=
  let k := bisect (List.length a) pivot a 0 (List.length a) in
  (firstn k a ++ pivot :: skipn k a)%list.

Definition binarysort (run rest : list A) : list A :=
  fold_left binary_insert rest run.

Definition list_sort (l : list A) : list A :=
  let (run, rest) := count_run l in binarysort run rest.

Definition sorted_reverse (l : list A) : list A :=
  rev (list_sort (rev l)).

End Sorting.

Definition nl : string := String "010"%char EmptyString.

(** [state.get(k) or []] *)
Definition or_empty (l : option (list product)) : list product :=
  match l with
  | Some ps => ps
  | None => []
  end.

(** One item line of the summary,
    [f"{i}. {p['title']} - {p['price']} - {p['rating']} ⭐{suffix}\n   Link: {p['link']}"],
    where [suffix] is [" [Amazon]"], [" [Google]"] or empty. *)
Definition item_text (rt : PyRuntime) (suffix : string) (i : nat)
    (t pr : pyval) (r : float) (l : pyval) : string :=
  string_of_nat i ++ ". " ++ py_str rt t ++ " - " ++ py_str rt pr ++ " - "
  ++ repr_float rt r ++ " ⭐" ++ suffix ++ nl ++ "   Link: " ++ py_str rt l.

Definition item_line (rt : PyRuntime) (suffix : string) (i : nat) (p : product)
  : res string :=
  (t <- getitem (title p) ;;
   pr <- getitem (price p) ;;
   r <- getitem (rating p) ;;
   l <- getitem (link p) ;;
   Ok (item_text rt suffix i t pr r l))%res.

(** [for i, p in enumerate(ps, i): summary_lines.append(...)] *)
Fixpoint append_items (rt : PyRuntime) (suffix : string) (i : nat)
    (ps : list product) (summary_lines : list string) : res (list string) :=
  match ps with
  | [] => Ok summary_lines
  | p :: ps' =>
      (line <- item_line rt suffix i p ;;
       append_items rt suffix (S i) ps' (summary_lines ++ [line])%list)%res
  end.

Definition query_line (q : string) : string :=
  "🔍 **Extracted product name:** " ++ q.
Definition amazon_header : string := "--- 🛒 **Amazon Products** ---".
Definition google_header : string := "--- 🛒 **Google Products** ---".
Definition top3_header : string := "=== 🏆 **Top 3 Products Overall** ===".

Definition rank_products (rt : PyRuntime) (state : ProductSearchState)
  : res update :=
  let amazon := or_empty (amazon_products state) in
  let google := or_empty (google_products state) in
  let all_products := (amazon ++ google)%list in
  let ranked := firstn 3 (sorted_reverse rating_key all_products) in
  let summary_lines := [query_line (user_input state); ""] in
  let summary_lines := (summary_lines ++ [amazon_header])%list in
  (summary_lines <- append_items rt " [Amazon]" 1 amazon summary_lines ;;
   let summary_lines := (summary_lines ++ [google_header])%list in
   summary_lines <- append_items rt " [Google]" 1 google summary_lines ;;
   let summary_lines := (summary_lines ++ [top3_header])%list in
   summary_lines <- append_items rt "" 1 ranked summary_lines ;;
   Ok [ W_ranked_products ranked;
        W_output_summary (String.concat nl summary_lines) ])%res.

(** ** The nodes and the graph *)

Definition node : Type := ProductSearchState -> M update.

Definition extract_product : node :=
  fun state => ret [W_user_input (user_input state)].

Definition search_amazon (rt : PyRuntime) : node :=
  fun state =>
    (ps <- search_amazon_products rt (user_input state) ;;
     ret [W_amazon_products ps])%M.

Definition search_google (rt : PyRuntime) : node :=
  fun state =>
    (ps <- search_google_shopping rt (user_input state) ;;
     ret [W_google_products ps])%M.

Definition rank_products_node (rt : PyRuntime) : node :=
  fun state => lift (rank_products rt state).

Record StateGraph : Type := mkGraph {
  nodes : list (string * node);
  edges : list (string * string);
  entry_point : option string
}.

Definition END : string := "__end__".

Definition empty_graph : StateGraph := mkGraph [] [] None.

Definition add_node (name : string) (f : node) (g : StateGraph) : StateGraph :=
  mkGraph (nodes g ++ [(name, f)])%list (edges g) (entry_point g).

Definition set_entry_point (name : string) (g : StateGraph) : StateGraph :=
  mkGraph (nodes g) (edges g) (Some name).

Definition add_edge (src dst : string) (g : StateGraph) : StateGraph :=
  mkGraph (nodes g) (edges g ++ [(src, dst)])%list (entry_point g).

Definition builder (rt : PyRuntime) : StateGraph :=
  let b := empty_graph in
  let b := add_node "extract_product" extract_product b in
  let b := add_node "search_amazon" (search_amazon rt) b in
  let b := add_node "search_google" (search_google rt) b in
  let b := add_node "rank_products" (rank_products_node rt) b in
  let b := set_entry_point "extract_product" b in
  let b := add_edge "extract_product" "search_amazon" b in
  let b := add_edge "search_amazon" "search_google" b in
  let b := add_edge "search_google" "rank_products" b in
  let b := add_edge "rank_products" END b in
  b.

(** The library's executor, for graphs in which every node has one
    outgoing edge: start at the entry point, run the current node, merge
    the keys it returns into the state, follow its edge, stop at [END].
    [fuel] bounds the number of steps (the library's recursion limit). *)
Fixpoint run_from (fuel : nat) (g : StateGraph) (current : string)
    (state : ProductSearchState) : M ProductSearchState :=
  if String.eqb current END then ret state
  else
    match fuel with
    | O => raise GraphRecursionError
    | S fuel' =>
        match assoc current (nodes g) with
        | None => raise KeyError
        | Some f =>
            (emit (EvNode current) ;;
             u <- f state ;;
             let state' := apply_update state u in
             match assoc current (edges g) with
             | Some next => run_from fuel' g next state'
             | None => ret state'
             end)%M
        end
    end.

Definition recursion_limit : nat := 25.

Definition invoke (g : StateGraph) (input : ProductSearchState)
  : M ProductSearchState :=
  match entry_point g with
  | Some start => run_from recursion_limit g start input
  | None => raise ValueError
  end.

(** [graph = builder.compile()] *)
Definition graph (rt : PyRuntime) : StateGraph := builder rt.

(** ** The user interface *)

(** [user_input_text] is what [st.text_input] returns and [clicked] what
    [st.button] returns. *)
Definition run_product_search (rt : PyRuntime) (user_input_text : string)
    (clicked : bool) : M unit :=
  (emit (EvTitle "Product Comparison Tool") ;;
   emit (EvTextInput "Enter your product query (e.g., 'iPhone 14'):") ;;
   emit (EvButton "Search") ;;
   if clicked then
     if py_truthy (PStr user_input_text) then
       let input_state := mkState user_input_text None None None None in
       result <- invoke (graph rt) input_state ;;
       emit (EvSubheader "Comparison Summary") ;;
       s <- lift (getitem (output_summary result)) ;;
       emit (EvMarkdown s)
     else
       emit (EvWarning "Please enter a product query.")
   else ret tt)%M.

(** ** Vocabulary of the statements *)

(** [item_lines rt suffix i ps lines]: [lines] has one line per product
    of [ps], in order, numbered from [i], each showing the index, title,
    price, rating and link of its product. *)
Inductive item_lines (rt : PyRuntime) (suffix : string)
  : nat -> list product -> list string -> Prop :=
| item_lines_nil : forall i, item_lines rt suffix i [] []
| item_lines_cons : forall i t pr r l ps lines,
    item_lines rt suffix (S i) ps lines ->
    item_lines rt suffix i (product_dict t pr r l :: ps)
               (item_text rt suffix i t pr r l :: lines).

(** The concatenation the rank stage sorts. *)
Definition all_products (state : ProductSearchState) : list product :=
  (or_empty (amazon_products state) ++ or_empty (google_products state))%list.

Definition complete (ps : list product) : Prop :=
  Forall (fun p => has_all_keys p = true) ps.

(** Python's [a >= b] on floats. *)
Definition float_ge (a b : float) : bool := PrimFloat.leb b a.

(** Descending order: every element is [>=] all the elements after it. *)
Definition descending {A : Type} (key : A -> float) : list A -> Prop :=
  StronglySorted (fun a b => float_ge (key a) (key b) = true).

Definition keys_not_nan {A : Type} (key : A -> float) (l : list A) : Prop :=
  Forall (fun a => PrimFloat.is_nan (key a) = false) l.

(** [pos] gives every element its place in the input: elements whose keys
    tie stand in the order of their places. *)
Definition ties_in_order {A : Type} (key : A -> float) (pos : A -> nat)
  : list A -> Prop :=
  StronglySorted
    (fun a b => PrimFloat.eqb (key a) (key b) = true -> pos a < pos b).

(** While the reversed list is sorted into ascending order: [x] may stand
    before [y] when its key is not above [y]'s and, if the keys tie, [x]
    came later in the original list. *)
Definition asc_before {A : Type} (key : A -> float) (pos : A -> nat)
    (x y : A) : Prop :=
  PrimFloat.leb (key x) (key y) = true /\
  (PrimFloat.eqb (key x) (key y) = true -> pos y < pos x).

Definition later_pos {A : Type} (pos : A -> nat) (x y : A) : Prop :=
  pos y < pos x.

Definition strictly_above {A : Type} (key : A -> float) (x y : A) : Prop :=
  PrimFloat.ltb (key y) (key x) = true.

Definition nan_free (ps : list product) : Prop := keys_not_nan rating_key ps.

(** The positions of the concatenation [ps], stably sorted by descending
    rating of the product they hold, cut to three: where each ranked
    product comes from. *)
Definition no_product : product := mkProduct None None None None.

Definition position_key (ps : list product) (k : nat) : float :=
  rating_key (nth k ps no_product).

Definition ranked_positions (ps : list product) : list nat :=
  firstn 3 (sorted_reverse (position_key ps) (seq 0 (List.length ps))).

(** The spec's words for the ranking: [order] lists the positions of the
    concatenation [ps] sorted by descending rating, ties in concatenation
    order. *)
Definition stable_sort_desc (ps : list product) (order : list nat) : Prop :=
  Permutation order (seq 0 (List.length ps)) /\
  descending (position_key ps) order /\
  ties_in_order (position_key ps) (fun k => k) order.

Definition is_node_event (ev : event) : option string :=
  match ev with
  | EvNode name => Some name
  | _ => None
  end.

Definition is_http_event (ev : event) : bool :=
  match ev with
  | EvHttpGet _ => true
  | _ => false
  end.

(** The nodes started during a run, in order. *)
Fixpoint stages (t : list event) : list string :=
  match t with
  | [] => []
  | ev :: t' =>
      match is_node_event ev with
      | Some name => name :: stages t'
      | None => stages t'
      end
  end.

Definition network_calls (t : list event) : list event :=
  filter is_http_event t.

(** The contract of a provider client run in world [w]: it returns a
    non-empty list of at most five products after exactly one request;
    the list is the parsed one when the request succeeds with status 200
    and parsing yields at least one record, and the fallback list in
    every other case. *)
Definition provider_contract (search : M (list product)) (req : request)
    (parse : pyval -> res (list product)) (fallback : list product)
    (w : world) : Prop :=
  exists ps t,
    search w = (Ok ps, t) /\
    ps <> [] /\
    List.length ps <= 5 /\
    network_calls t = [EvHttpGet req] /\
    match requests_get w req with
    | Raise _ => ps = fallback
    | Ok resp =>
        if Z.eqb (status_code resp) 200 then
          match json resp with
          | Raise _ => ps = fallback
          | Ok data =>
              match parse data with
              | Raise _ => ps = fallback
              | Ok [] => ps = fallback
              | Ok parsed => ps = parsed
              end
          end
        else ps = fallback
    end.

(** The product has a link that is truthy: present, not None, not empty. *)
Definition has_link (p : product) : bool :=
  match link p with
  | Some l => py_truthy l
  | None => false
  end.

(** An exception reached the client's handler: the request raised, or it
    answered 200 and decoding the body or converting the entries raised. *)
Definition client_raised (answer : res response)
    (parse : pyval -> res (list product)) : Prop :=
  match answer with
  | Raise _ => True
  | Ok resp =>
      if Z.eqb (status_code resp) 200 then
        match json resp with
        | Raise _ => True
        | Ok data =>
            match parse data with
            | Raise _ => True
            | Ok _ => False
            end
        end
      else False
  end.

(** The provider gave no usable answer: the request raised, or the status
    is not 200. *)
Definition provider_down (answer : res response) : Prop :=
  match answer with
  | Raise _ => True
  | Ok resp => status_code resp <> 200%Z
  end.

(** The events the page shows before it looks at the button. *)
Definition page_header : list event :=
  [ EvTitle "Product Comparison Tool";
    EvTextInput "Enter your product query (e.g., 'iPhone 14'):";
    EvButton "Search" ].

(** ** Sample inputs, used to run the model on concrete data *)

(** A stand-in for the interpreter's conversions that knows the few
    literals appearing in the samples. *)
Definition sample_runtime : PyRuntime :=
  mkRuntime
    (fun s => if String.eqb s "4.5" then Some 4.5%float
              else if String.eqb s "4.0" then Some 4%float
              else if String.eqb s "0" then Some 0%float
              else None)
    (fun f => if PrimFloat.eqb f 4.5%float then "4.5"
              else if PrimFloat.eqb f 4%float then "4.0"
              else if PrimFloat.eqb f 1%float then "1.0"
              else if PrimFloat.is_nan f then "nan"
              else "0.0")
    (fun _ => "[]").

Definition sample_a : product :=
  product_dict (PStr "A-item") (PStr "₹70,000") 4.5%float (PStr "https://a.example/1").

Definition sample_b : product :=
  product_dict (PStr "B-item") (PStr "₹69,000") 4%float (PStr "https://b.example/1").

Definition sample_b' : product :=
  product_dict (PStr "B-item 2") (PStr "₹71,000") 4.5%float (PStr "https://b.example/2").

Definition sample_nan : product :=
  product_dict (PStr "N-item") (PStr "₹1") PrimFloat.nan (PStr "https://a.example/n").

Definition sample_one : product :=
  product_dict (PStr "O-item") (PStr "₹2") 1%float (PStr "https://b.example/o").

Definition sample_state : ProductSearchState :=
  mkState "iPhone 14" (Some [sample_a]) (Some [sample_b; sample_b']) None None.

(** The same inputs as [sample_state], with stale outputs already present. *)
Definition sample_state_rerun : ProductSearchState :=
  mkState "iPhone 14" (Some [sample_a]) (Some [sample_b; sample_b'])
          (Some [sample_one]) (Some "stale").

Definition nan_state : ProductSearchState :=
  mkState "iPhone 14" (Some [sample_nan]) (Some [sample_one]) None None.

(** Equal ratings around a NaN one: five amazon products rated 4.0, 4.0,
    NaN, 4.0, 4.0 and two google products rated 4.0 and 4.5. *)
Definition tie_a0 : product :=
  product_dict (PStr "A0") (PStr "10") 4.0%float (PStr "a0").
Definition tie_a1 : product :=
  product_dict (PStr "A1") (PStr "11") 4.0%float (PStr "a1").
Definition tie_a2 : product :=
  product_dict (PStr "A2") (PStr "12") PrimFloat.nan (PStr "a2").
Definition tie_a3 : product :=
  product_dict (PStr "A3") (PStr "13") 4.0%float (PStr "a3").
Definition tie_a4 : product :=
  product_dict (PStr "A4") (PStr "14") 4.0%float (PStr "a4").
Definition tie_g0 : product :=
  product_dict (PStr "G0") (PStr "20") 4.0%float (PStr "g0").
Definition tie_g1 : product :=
  product_dict (PStr "G1") (PStr "21") 4.5%float (PStr "g1").

Definition tie_state : ProductSearchState :=
  mkState "tv" (Some [tie_a0; tie_a1; tie_a2; tie_a3; tie_a4])
          (Some [tie_g0; tie_g1]) None None.

(** A world whose two providers answer with the given responses. *)
Definition mock_world (amazon google : res response) : world :=
  mkWorld (Some "key-a") (Some "key-b")
    (fun r => if String.eqb (url r) "https://serpapi.com/search.json"
              then google else amazon).

Definition amazon_body (entries : list pyval) : res pyval :=
  Ok (PDict [("data", PDict [("products", PList entries)])]).

Definition google_body (entries : list pyval) : res pyval :=
  Ok (PDict [("shopping_results", PList entries)]).

(** Provider A answers 500; provider B lists one rated entry and one whose
    rating is null. *)
Definition world_500_null : world :=
  mock_world
    (Ok (mkResponse 500 (Raise JSONDecodeError)))
    (Ok (mkResponse 200
           (google_body
              [ PDict [("title", PStr "X"); ("rating", PFloat 4.5%float)];
                PDict [("title", PStr "Y"); ("rating", PNone)] ]))).

(** Provider A answers 500; provider B lists one entry whose rating is NaN
    (a value [json.loads] accepts). *)
Definition world_nan : world :=
  mock_world
    (Ok (mkResponse 500 (Raise JSONDecodeError)))
    (Ok (mkResponse 200
           (google_body
              [ PDict [("title", PStr "N-item"); ("rating", PFloat PrimFloat.nan)] ]))).

(** Provider A times out; provider B lists one entry without optional keys. *)
Definition world_timeout : world :=
  mock_world
    (Raise Timeout)
    (Ok (mkResponse 200 (google_body [PDict [("title", PStr "Y")]]))).

(** The end-to-end scenario: one item rated 4.5 from A, one rated 4.0 from B. *)
Definition world_scenario : world :=
  mock_world
    (Ok (mkResponse 200
           (amazon_body
              [ PDict [ ("product_title", PStr "A-item");
                        ("product_price", PStr "₹70,000");
                        ("product_star_rating", PStr "4.5");
                        ("product_url", PStr "https://a.example/1") ] ])))
    (Ok (mkResponse 200
           (google_body
              [ PDict [ ("title", PStr "B-item"); ("price", PStr "₹69,000");
                        ("rating", PFloat 4%float);
                        ("link", PStr "https://b.example/1") ] ]))).

(** As [world_scenario], but provider B times out. *)
Definition world_scenario_b_down : world :=
  mkWorld (Some "key-a") (Some "key-b")
    (fun r => if String.eqb (url r) "https://serpapi.com/search.json"
              then Raise Timeout
              else requests_get world_scenario r).

(** Five well-formed entries followed by one whose rating is null. *)
Definition six_entries : list pyval :=
  [ PDict [("title", PStr "G1"); ("rating", PFloat 4.5%float)];
    PDict [("title", PStr "G2"); ("rating", PFloat 4%float)];
    PDict [("title", PStr "G3")];
    PDict [("title", PStr "G4"); ("price", PStr "₹10")];
    PDict [("title", PStr "G5"); ("rating", PFloat 1%float)];
    PDict [("title", PStr "G6"); ("rating", PNone)] ].

Definition world_six : world :=
  mock_world (Raise Timeout) (Ok (mkResponse 200 (google_body six_entries))).

(** Provider A answers 200 with an object that has no "data" key,
    provider B answers 200 with a JSON array. *)
Definition world_odd_bodies : world :=
  mock_world (Ok (mkResponse 200 (Ok (PDict [("status", PStr "OK")]))))
             (Ok (mkResponse 200 (Ok (PList [])))).

(** Provider A cannot be reached, provider B answers 503. *)
Definition world_down : world :=
  mock_world (Raise ConnectionError) (Ok (mkResponse 503 (Raise JSONDecodeError))).

(** * Properties *)
(** ** Order facts about binary64 comparison *)

Module FloatOrder.

Ltac cmp_cases :=
  repeat match goal with
  | |- context [Pos.compare_cont Eq ?a ?b] =>
      change (Pos.compare_cont Eq a b) with (Pos.compare a b)
  | |- context [(?a ?= ?b)%Z] => destruct (Z.compare_spec a b)
  | |- context [(?a ?= ?b)%positive] => destruct (Pos.compare_spec a b)
  end.

Ltac by_cases x :=
  let s := fresh "s" in
  destruct x as [s|s| |s ? ?]; try destruct s.

Lemma SFleb_trans x y z :
  SFleb x y = true -> SFleb y z = true -> SFleb x z = true.
Proof.
  unfold SFleb, SFcompare.
  by_cases x; by_cases y; by_cases z; simpl; try congruence;
    cmp_cases; simpl; subst; try congruence; lia.
Qed.

Lemma SFltb_false_leb x y :
  SFeqb x x = true -> SFeqb y y = true ->
  SFltb x y = false -> SFleb y x = true.
Proof.
  unfold SFleb, SFltb, SFeqb, SFcompare.
  by_cases x; by_cases y; simpl; try congruence;
    cmp_cases; simpl; subst; try congruence; lia.
Qed.

Lemma SFcompare_sym x y :
  SFcompare y x = option_map CompOpp (SFcompare x y).
Proof.
  unfold SFcompare.
  by_cases x; by_cases y; simpl; try reflexivity;
    cmp_cases; simpl; subst; try reflexivity; try lia.
Qed.

Lemma leb_trans a b c :
  PrimFloat.leb a b = true -> PrimFloat.leb b c = true ->
  PrimFloat.leb a c = true.
Proof. rewrite !leb_spec. apply SFleb_trans. Qed.

Lemma ltb_false_leb a b :
  PrimFloat.is_nan a = false -> PrimFloat.is_nan b = false ->
  PrimFloat.ltb a b = false -> PrimFloat.leb b a = true.
Proof.
  unfold PrimFloat.is_nan. rewrite !negb_false_iff, !eqb_spec, ltb_spec, leb_spec.
  apply SFltb_false_leb.
Qed.

Lemma ltb_leb a b : PrimFloat.ltb a b = true -> PrimFloat.leb a b = true.
Proof.
  rewrite ltb_spec, leb_spec. unfold SFltb, SFleb.
  destruct (SFcompare _ _) as [[]|]; congruence.
Qed.

Lemma leb_refl a : PrimFloat.is_nan a = false -> PrimFloat.leb a a = true.
Proof.
  unfold PrimFloat.is_nan. rewrite negb_false_iff, eqb_spec, leb_spec.
  unfold SFeqb, SFleb. destruct (SFcompare _ _) as [[]|]; congruence.
Qed.

Lemma eqb_sym a b : PrimFloat.eqb a b = PrimFloat.eqb b a.
Proof.
  rewrite !eqb_spec. unfold SFeqb.
  rewrite (SFcompare_sym (Prim2SF a) (Prim2SF b)).
  destruct (SFcompare _ _) as [[]|]; reflexivity.
Qed.

Lemma ltb_not_eqb a b : PrimFloat.ltb a b = true -> PrimFloat.eqb b a = false.
Proof.
  rewrite eqb_sym, ltb_spec, eqb_spec. unfold SFltb, SFeqb.
  destruct (SFcompare _ _) as [[]|]; congruence.
Qed.

Lemma leb_antisym a b :
  PrimFloat.leb a b = true -> PrimFloat.leb b a = true ->
  PrimFloat.eqb a b = true.
Proof.
  rewrite !leb_spec, eqb_spec. unfold SFleb, SFeqb.
  rewrite (SFcompare_sym (Prim2SF a) (Prim2SF b)).
  destruct (SFcompare _ _) as [[]|]; simpl; congruence.
Qed.

Lemma SFltb_trans x y z :
  SFltb x y = true -> SFltb y z = true -> SFltb x z = true.
Proof.
  unfold SFltb, SFcompare.
  by_cases x; by_cases y; by_cases z; simpl; try congruence;
    cmp_cases; simpl; subst; try congruence; lia.
Qed.

Lemma SFltb_leb_trans x y z :
  SFltb x y = true -> SFleb y z = true -> SFltb x z = true.
Proof.
  unfold SFltb, SFleb, SFcompare.
  by_cases x; by_cases y; by_cases z; simpl; try congruence;
    cmp_cases; simpl; subst; try congruence; lia.
Qed.

Lemma ltb_trans a b c :
  PrimFloat.ltb a b = true -> PrimFloat.ltb b c = true ->
  PrimFloat.ltb a c = true.
Proof. rewrite !ltb_spec. apply SFltb_trans. Qed.

Lemma ltb_leb_trans a b c :
  PrimFloat.ltb a b = true -> PrimFloat.leb b c = true ->
  PrimFloat.ltb a c = true.
Proof. rewrite !ltb_spec, leb_spec. apply SFltb_leb_trans. Qed.

Lemma leb_not_ltb a b : PrimFloat.leb a b = true -> PrimFloat.ltb b a = false.
Proof.
  rewrite leb_spec, ltb_spec. unfold SFleb, SFltb.
  rewrite (SFcompare_sym (Prim2SF a) (Prim2SF b)).
  destruct (SFcompare _ _) as [[]|]; simpl; congruence.
Qed.

End FloatOrder.

(** ** The sort: permutation, descending order, stability *)

Lemma StronglySorted_app_inv {A : Type} (R : A -> A -> Prop) l1 l2 :
  StronglySorted R (l1 ++ l2) ->
  StronglySorted R l1 /\ StronglySorted R l2 /\
  forall x y, In x l1 -> In y l2 -> R x y.
Proof.
  induction l1 as [|a l1 IH]; simpl; intros H.
  - repeat split; [constructor|exact H|]. intros x y [].
  - inversion H as [|? ? Hs Hall]; subst.
    destruct (IH Hs) as (H1 & H2 & H3).
    rewrite Forall_forall in Hall.
    repeat split; [|exact H2|].
    + constructor; [exact H1|]. apply Forall_forall. intros x Hx.
      apply Hall, in_or_app. now left.
    + intros x y [<-|Hx] Hy.
      * apply Hall, in_or_app. now right.
      * now apply H3.
Qed.

Lemma StronglySorted_app {A : Type} (R : A -> A -> Prop) l1 l2 :
  StronglySorted R l1 -> StronglySorted R l2 ->
  (forall x y, In x l1 -> In y l2 -> R x y) ->
  StronglySorted R (l1 ++ l2).
Proof.
  intros H1 H2 H. induction H1 as [|a l1 Hs IH Hall]; simpl; [exact H2|].
  constructor.
  - apply IH. intros x y Hx. apply H. now right.
  - rewrite Forall_forall in *. intros y Hy.
    apply in_app_or in Hy. destruct Hy as [Hy|Hy]; [now apply Hall|].
    apply H; [now left|exact Hy].
Qed.

Lemma StronglySorted_rev {A : Type} (R : A -> A -> Prop) l :
  StronglySorted R l -> StronglySorted (fun x y => R y x) (rev l).
Proof.
  induction 1 as [|a l Hs IH Hall]; simpl; [constructor|].
  apply StronglySorted_app; [exact IH|repeat constructor|].
  intros x y Hx [<-|[]]. rewrite Forall_forall in Hall.
  apply Hall. now apply in_rev.
Qed.

Lemma StronglySorted_weaken {A : Type} (R R' : A -> A -> Prop) l :
  (forall x y, In x l -> In y l -> R x y -> R' x y) ->
  StronglySorted R l -> StronglySorted R' l.
Proof.
  intros H Hs. induction Hs as [|a l Hs IH Hall]; constructor.
  - apply IH. intros x y Hx Hy. apply H; now right.
  - rewrite Forall_forall in *. intros y Hy.
    apply H; [now left|now right|now apply Hall].
Qed.

Lemma StronglySorted_map {A B : Type} (R : A -> A -> Prop) (f : B -> A) l :
  StronglySorted (fun x y => R (f x) (f y)) l -> StronglySorted R (map f l).
Proof.
  induction 1 as [|a l Hs IH Hall]; simpl; constructor; [exact IH|].
  rewrite Forall_forall in *. intros y Hy.
  apply in_map_iff in Hy. destruct Hy as (b & <- & Hb). now apply Hall.
Qed.

Lemma StronglySorted_nth {A : Type} (R : A -> A -> Prop) (l : list A) :
  StronglySorted R l ->
  forall a b x y, a < b ->
    nth_error l a = Some x -> nth_error l b = Some y -> R x y.
Proof.
  induction 1 as [|h t Hs IH Hall]; intros a b x y Hab Ha Hb.
  - destruct a; discriminate.
  - destruct b as [|b]; [lia|]. simpl in Hb.
    destruct a as [|a]; simpl in Ha.
    + injection Ha as <-. rewrite Forall_forall in Hall.
      apply Hall. eapply nth_error_In; eassumption.
    + apply (IH a b); auto; lia.
Qed.

Section SortingFacts.
Context {A : Type} (key : A -> float).

(** *** The result is a permutation of the input, whatever the keys *)

Lemma take_descending_app l : forall prev,
  (fst (take_descending key prev l) ++ snd (take_descending key prev l))%list = l.
Proof.
  induction l as [|y tl IH]; intros prev; simpl; [reflexivity|].
  destruct (key_lt key y prev); simpl; [|reflexivity].
  specialize (IH y). destruct (take_descending key y tl) as [d r]. simpl in *.
  now rewrite IH.
Qed.

Lemma take_ascending_app l : forall prev,
  (fst (take_ascending key prev l) ++ snd (take_ascending key prev l))%list = l.
Proof.
  induction l as [|y tl IH]; intros prev; simpl; [reflexivity|].
  destruct (key_lt key y prev); simpl; [reflexivity|].
  specialize (IH y). destruct (take_ascending key y tl) as [a r]. simpl in *.
  now rewrite IH.
Qed.

(** [count_run] on a list of two or more elements, through the run taken
    after its first element. *)
Lemma count_run_cons x0 x1 tl :
  count_run key (x0 :: x1 :: tl)
  = if key_lt key x1 x0
    then (rev (x0 :: fst (take_descending key x0 (x1 :: tl))),
          snd (take_descending key x0 (x1 :: tl)))
    else (x0 :: fst (take_ascending key x0 (x1 :: tl)),
          snd (take_ascending key x0 (x1 :: tl))).
Proof.
  cbn [count_run take_descending take_ascending].
  destruct (key_lt key x1 x0).
  - destruct (take_descending key x1 tl); reflexivity.
  - destruct (take_ascending key x1 tl); reflexivity.
Qed.

Lemma count_run_perm l :
  Permutation (fst (count_run key l) ++ snd (count_run key l)) l.
Proof.
  destruct l as [|x0 [|x1 tl]]; try apply Permutation_refl.
  rewrite count_run_cons. destruct (key_lt key x1 x0); cbn [fst snd].
  - rewrite <- (take_descending_app (x1 :: tl) x0) at 3.
    rewrite app_comm_cons. apply Permutation_app_tail.
    apply Permutation_sym, Permutation_rev.
  - rewrite <- (take_ascending_app (x1 :: tl) x0) at 3. apply Permutation_refl.
Qed.

Lemma binary_insert_perm a pivot :
  Permutation (binary_insert key a pivot) (pivot :: a).
Proof.
  unfold binary_insert.
  set (k := bisect key _ _ _ _ _).
  rewrite <- (firstn_skipn k a) at 3.
  apply Permutation_sym, Permutation_middle.
Qed.

Lemma binarysort_perm rest : forall run,
  Permutation (binarysort key run rest) (run ++ rest).
Proof.
  unfold binarysort. induction rest as [|x rest IH]; intros run; simpl.
  - rewrite app_nil_r. apply Permutation_refl.
  - apply perm_trans with (binary_insert key run x ++ rest)%list; [apply IH|].
    apply perm_trans with ((x :: run) ++ rest)%list.
    + apply Permutation_app_tail, binary_insert_perm.
    + simpl. apply Permutation_middle.
Qed.

Lemma list_sort_perm l : Permutation (list_sort key l) l.
Proof.
  unfold list_sort. pose proof (count_run_perm l) as H.
  destruct (count_run key l) as [run rest]. simpl in H.
  apply perm_trans with (run ++ rest)%list; [apply binarysort_perm|exact H].
Qed.

Lemma sorted_reverse_perm l : Permutation (sorted_reverse key l) l.
Proof.
  unfold sorted_reverse.
  apply perm_trans with (list_sort key (rev l));
    [apply Permutation_sym, Permutation_rev|].
  apply perm_trans with (rev l); [apply list_sort_perm|].
  apply Permutation_sym, Permutation_rev.
Qed.

Lemma sorted_reverse_length l :
  List.length (sorted_reverse key l) = List.length l.
Proof. apply Permutation_length, sorted_reverse_perm. Qed.

Lemma sorted_reverse_In x l : In x (sorted_reverse key l) <-> In x l.
Proof.
  split; apply Permutation_in.
  - apply sorted_reverse_perm.
  - apply Permutation_sym, sorted_reverse_perm.
Qed.

Lemma keys_not_nan_perm l l' :
  Permutation l l' -> keys_not_nan key l -> keys_not_nan key l'.
Proof.
  unfold keys_not_nan. rewrite !Forall_forall. intros HP H a Ha.
  apply H. now apply (Permutation_in _ (Permutation_sym HP)).
Qed.

End SortingFacts.

Section SortingOrder.
Context {A : Type} (key : A -> float) (pos : A -> nat).

(** *** Without NaN keys the ascending pass sorts, stably *)

Lemma take_descending_sorted l : forall prev,
  StronglySorted (strictly_above key)
                 (prev :: fst (take_descending key prev l)).
Proof.
  induction l as [|y tl IH]; intros prev; simpl.
  - repeat constructor.
  - destruct (key_lt key y prev) eqn:E; [|repeat constructor].
    specialize (IH y). destruct (take_descending key y tl) as [d r].
    cbn [fst] in *. constructor; [exact IH|].
    inversion IH as [|? ? _ Hall]; subst. constructor; [exact E|].
    rewrite Forall_forall in *. intros z Hz. specialize (Hall z Hz).
    unfold strictly_above, key_lt in *.
    now apply FloatOrder.ltb_trans with (key y).
Qed.

Lemma take_ascending_sorted l : forall prev,
  keys_not_nan key (prev :: l) ->
  StronglySorted (later_pos pos) (prev :: l) ->
  StronglySorted (asc_before key pos)
                 (prev :: fst (take_ascending key prev l)).
Proof.
  induction l as [|y tl IH]; intros prev Hn Hp; simpl.
  - repeat constructor.
  - destruct (key_lt key y prev) eqn:E; [repeat constructor|].
    inversion Hn as [|? ? Hprev Hn']; subst.
    inversion Hp as [|? ? Hp' Hlater]; subst.
    specialize (IH y Hn' Hp'). destruct (take_ascending key y tl) as [a r] eqn:Et.
    cbn [fst] in *.
    assert (Hy : PrimFloat.leb (key prev) (key y) = true).
    { inversion Hn'; subst. now apply FloatOrder.ltb_false_leb. }
    constructor; [exact IH|].
    rewrite Forall_forall in Hlater.
    constructor.
    + split; [exact Hy|]. intros _. apply Hlater. now left.
    + inversion IH as [|? ? _ Hall]; subst.
      rewrite Forall_forall in *. intros z Hz. destruct (Hall z Hz) as [Hle _].
      split; [now apply FloatOrder.leb_trans with (key y)|].
      intros _. apply Hlater. right.
      pose proof (take_ascending_app key tl y) as Happ. rewrite Et in Happ.
      simpl in Happ. rewrite <- Happ. apply in_or_app. now left.
Qed.

Lemma strictly_above_rev l :
  StronglySorted (strictly_above key) l ->
  StronglySorted (asc_before key pos) (rev l).
Proof.
  intros H. apply StronglySorted_rev in H.
  revert H. apply StronglySorted_weaken. intros x y _ _ Hxy.
  unfold strictly_above in Hxy. split.
  - now apply FloatOrder.ltb_leb.
  - intros Htie. apply FloatOrder.ltb_not_eqb in Hxy.
    rewrite FloatOrder.eqb_sym in Hxy. congruence.
Qed.

Lemma count_run_sorted l :
  keys_not_nan key l ->
  StronglySorted (later_pos pos) l ->
  StronglySorted (asc_before key pos) (fst (count_run key l)) /\
  StronglySorted (later_pos pos) (snd (count_run key l)) /\
  (forall x y, In x (fst (count_run key l)) -> In y (snd (count_run key l)) ->
     later_pos pos x y).
Proof.
  intros Hn Hp.
  destruct l as [|x0 [|x1 tl]].
  - simpl. repeat split; try constructor. intros x y [].
  - simpl. repeat split; try repeat constructor. intros x y _ [].
  - rewrite count_run_cons. destruct (key_lt key x1 x0) eqn:E; cbn [fst snd].
    + pose proof (take_descending_app key (x1 :: tl) x0) as Happ.
      pose proof (take_descending_sorted (x1 :: tl) x0) as Hs.
      destruct (take_descending key x0 (x1 :: tl)) as [d r]. cbn [fst snd] in *.
      rewrite <- Happ, app_comm_cons in Hp.
      apply StronglySorted_app_inv in Hp. destruct Hp as (_ & Hr & Hc).
      split; [now apply strictly_above_rev|]. split; [exact Hr|].
      intros x y Hx. apply Hc. now apply in_rev.
    + pose proof (take_ascending_app key (x1 :: tl) x0) as Happ.
      pose proof (take_ascending_sorted (x1 :: tl) x0 Hn Hp) as Hs.
      destruct (take_ascending key x0 (x1 :: tl)) as [a r]. cbn [fst snd] in *.
      rewrite <- Happ, app_comm_cons in Hp.
      apply StronglySorted_app_inv in Hp. destruct Hp as (_ & Hr & Hc).
      split; [exact Hs|]. split; [exact Hr|exact Hc].
Qed.

Lemma bisect_S fuel pivot a l r :
  bisect key (S fuel) pivot a l r
  = if Nat.ltb l r then
      match nth_error a (l + (r - l) / 2) with
      | Some y =>
          if key_lt key pivot y then bisect key fuel pivot a l (l + (r - l) / 2)
          else bisect key fuel pivot a (S (l + (r - l) / 2)) r
      | None => l
      end
    else l.
Proof. reflexivity. Qed.

(** The binary search returns the place after the last element that is
    not above the pivot. *)
Lemma bisect_spec pivot a :
  (forall i j x y, i <= j -> nth_error a i = Some x -> nth_error a j = Some y ->
     PrimFloat.leb (key x) (key y) = true) ->
  PrimFloat.is_nan (key pivot) = false ->
  keys_not_nan key a ->
  forall fuel l r,
    l <= r <= List.length a -> r - l <= fuel ->
    (forall i x, i < l -> nth_error a i = Some x -> key_lt key pivot x = false) ->
    (forall i x, r <= i -> nth_error a i = Some x -> key_lt key pivot x = true) ->
    (forall i x, i < bisect key fuel pivot a l r -> nth_error a i = Some x ->
       key_lt key pivot x = false) /\
    (forall i x, bisect key fuel pivot a l r <= i -> nth_error a i = Some x ->
       key_lt key pivot x = true).
Proof.
  intros Hsorted Hpiv Hn.
  induction fuel as [|fuel IH]; intros l r Hlr Hfuel Hlow Hhigh.
  - simpl. assert (l = r) by lia. subst r. split; [exact Hlow|exact Hhigh].
  - rewrite bisect_S. destruct (Nat.ltb_spec l r) as [Hlt|Hge].
    2:{ assert (l = r) by lia. subst r. split; [exact Hlow|exact Hhigh]. }
    assert (Hdiv : (r - l) / 2 < r - l) by (apply Nat.div_lt; lia).
    set (p := l + (r - l) / 2) in *.
    destruct (nth_error a p) as [y|] eqn:Ey.
    2:{ apply nth_error_None in Ey. lia. }
    assert (Hy : PrimFloat.is_nan (key y) = false).
    { unfold keys_not_nan in Hn. rewrite Forall_forall in Hn.
      eapply Hn, nth_error_In, Ey. }
    destruct (key_lt key pivot y) eqn:E.
    + apply IH; [lia|lia|exact Hlow|].
      intros i x Hi Hx. unfold key_lt in *.
      apply FloatOrder.ltb_leb_trans with (key y); [exact E|].
      now apply (Hsorted p i y x).
    + apply IH; [lia|lia| |exact Hhigh].
      intros i x Hi Hx. unfold key_lt in *.
      apply FloatOrder.leb_not_ltb.
      apply FloatOrder.leb_trans with (key y).
      * apply (Hsorted i p x y); [lia|exact Hx|exact Ey].
      * now apply FloatOrder.ltb_false_leb.
Qed.

Lemma asc_before_nth a :
  keys_not_nan key a ->
  StronglySorted (asc_before key pos) a ->
  forall i j x y, i <= j -> nth_error a i = Some x -> nth_error a j = Some y ->
    PrimFloat.leb (key x) (key y) = true.
Proof.
  intros Hn Hs i j x y Hij Hx Hy.
  destruct (Nat.eq_dec i j) as [->|Hne].
  - rewrite Hx in Hy. injection Hy as <-. apply FloatOrder.leb_refl.
    unfold keys_not_nan in Hn. rewrite Forall_forall in Hn.
    eapply Hn, nth_error_In, Hx.
  - apply (StronglySorted_nth _ _ Hs i j x y); [lia|exact Hx|exact Hy].
Qed.

Lemma binary_insert_sorted a pivot :
  keys_not_nan key a ->
  PrimFloat.is_nan (key pivot) = false ->
  StronglySorted (asc_before key pos) a ->
  (forall x, In x a -> later_pos pos x pivot) ->
  StronglySorted (asc_before key pos) (binary_insert key a pivot).
Proof.
  intros Hn Hpiv Hs Hlater.
  assert (Hout : forall i x, List.length a <= i -> nth_error a i = Some x ->
                             key_lt key pivot x = true).
  { intros i x Hi Hx. assert (H : nth_error a i <> None) by congruence.
    apply nth_error_Some in H. lia. }
  assert (Hin : forall i x, i < 0 -> nth_error a i = Some x ->
                            key_lt key pivot x = false) by (intros; lia).
  destruct (bisect_spec pivot a (asc_before_nth a Hn Hs) Hpiv Hn
              (List.length a) 0 (List.length a)
              (conj (Nat.le_0_l _) (Nat.le_refl _))
              (Nat.le_sub_l _ _) Hin Hout) as [Hlow Hhigh].
  unfold binary_insert. set (k := bisect key _ _ _ _ _) in *.
  pose proof Hs as Hs'. rewrite <- (firstn_skipn k a) in Hs'.
  apply StronglySorted_app_inv in Hs'. destruct Hs' as (H1 & H2 & H3).
  assert (Hk : forall y, In y (skipn k a) -> key_lt key pivot y = true).
  { intros y Hy. apply In_nth_error in Hy. destruct Hy as [j Hj].
    rewrite nth_error_skipn in Hj. apply (Hhigh (k + j) y); [lia|exact Hj]. }
  apply StronglySorted_app; [exact H1| |].
  - constructor; [exact H2|]. apply Forall_forall. intros y Hy.
    specialize (Hk y Hy). unfold key_lt in Hk. split.
    + now apply FloatOrder.ltb_leb.
    + intros Htie. apply FloatOrder.ltb_not_eqb in Hk.
      rewrite FloatOrder.eqb_sym in Hk. congruence.
  - intros x y Hx [<-|Hy]; [|now apply H3].
    assert (Hxa : In x a)
      by (rewrite <- (firstn_skipn k a); apply in_or_app; now left).
    apply In_nth_error in Hx. destruct Hx as [i Hi].
    assert (Hik : i < k).
    { assert (Hne : nth_error (firstn k a) i <> None) by congruence.
      apply nth_error_Some in Hne. rewrite length_firstn in Hne. lia. }
    rewrite nth_error_firstn in Hi.
    destruct (Nat.ltb_spec i k); [|lia].
    specialize (Hlow i x Hik Hi). unfold key_lt in Hlow. split.
    + apply FloatOrder.ltb_false_leb; [exact Hpiv| |exact Hlow].
      unfold keys_not_nan in Hn. rewrite Forall_forall in Hn. now apply Hn.
    + intros _. now apply Hlater.
Qed.

Lemma binarysort_sorted rest : forall run,
  keys_not_nan key run -> keys_not_nan key rest ->
  StronglySorted (asc_before key pos) run ->
  StronglySorted (later_pos pos) rest ->
  (forall x y, In x run -> In y rest -> later_pos pos x y) ->
  StronglySorted (asc_before key pos) (binarysort key run rest).
Proof.
  unfold binarysort.
  induction rest as [|p rest IH]; intros run Hnr Hnt Hs Hp Hc; simpl; [exact Hs|].
  inversion Hnt as [|? ? Hpn Hnt']; subst.
  inversion Hp as [|? ? Hp' Hpl]; subst.
  apply IH; auto.
  - apply (keys_not_nan_perm key (p :: run)).
    + apply Permutation_sym, binary_insert_perm.
    + now constructor.
  - apply binary_insert_sorted; auto. intros x Hx. apply Hc; [exact Hx|now left].
  - intros x y Hx Hy.
    apply (Permutation_in _ (binary_insert_perm key run p)) in Hx.
    destruct Hx as [<-|Hx].
    + rewrite Forall_forall in Hpl. now apply Hpl.
    + apply Hc; [exact Hx|now right].
Qed.

Lemma list_sort_sorted l :
  keys_not_nan key l ->
  StronglySorted (later_pos pos) l ->
  StronglySorted (asc_before key pos) (list_sort key l).
Proof.
  intros Hn Hp. unfold list_sort.
  destruct (count_run_sorted l Hn Hp) as (H1 & H2 & H3).
  pose proof (count_run_perm key l) as HP.
  destruct (count_run key l) as [run rest]. cbn [fst snd] in *.
  assert (Hn' : keys_not_nan key (run ++ rest))
    by (apply (keys_not_nan_perm key l); [now apply Permutation_sym|exact Hn]).
  apply Forall_app in Hn'. destruct Hn' as [Hnr Hnt].
  now apply binarysort_sorted.
Qed.

(** In the result an element stands before another only if its key is
    not below the other's and, on a tie, it came first in the input. *)
Lemma sorted_reverse_sorted l :
  keys_not_nan key l ->
  StronglySorted (fun a b => pos a < pos b) l ->
  StronglySorted (fun x y => asc_before key pos y x) (sorted_reverse key l).
Proof.
  intros Hn Hp. unfold sorted_reverse.
  apply StronglySorted_rev. apply list_sort_sorted.
  - apply (keys_not_nan_perm key l); [apply Permutation_rev|exact Hn].
  - apply StronglySorted_rev in Hp. exact Hp.
Qed.

Lemma sorted_reverse_ties l :
  keys_not_nan key l ->
  StronglySorted (fun a b => pos a < pos b) l ->
  ties_in_order key pos (sorted_reverse key l).
Proof.
  intros Hn Hp. pose proof (sorted_reverse_sorted l Hn Hp) as H.
  revert H. apply StronglySorted_weaken. intros x y _ _ [_ Ht] Htie.
  apply Ht. now rewrite FloatOrder.eqb_sym.
Qed.

End SortingOrder.

(** *** Sorting commutes with renaming the elements *)

Section SortingMap.
Context {A B : Type} (key : A -> float) (f : B -> A).

Lemma take_descending_map l : forall prev,
  take_descending key (f prev) (map f l)
  = (map f (fst (take_descending (fun b => key (f b)) prev l)),
     map f (snd (take_descending (fun b => key (f b)) prev l))).
Proof.
  induction l as [|y tl IH]; intros prev; simpl; [reflexivity|].
  unfold key_lt. destruct (PrimFloat.ltb (key (f y)) (key (f prev)));
    [|reflexivity].
  rewrite IH. destruct (take_descending _ y tl); reflexivity.
Qed.

Lemma take_ascending_map l : forall prev,
  take_ascending key (f prev) (map f l)
  = (map f (fst (take_ascending (fun b => key (f b)) prev l)),
     map f (snd (take_ascending (fun b => key (f b)) prev l))).
Proof.
  induction l as [|y tl IH]; intros prev; simpl; [reflexivity|].
  unfold key_lt. destruct (PrimFloat.ltb (key (f y)) (key (f prev)));
    [reflexivity|].
  rewrite IH. destruct (take_ascending _ y tl); reflexivity.
Qed.

Lemma count_run_map l :
  count_run key (map f l)
  = (map f (fst (count_run (fun b => key (f b)) l)),
     map f (snd (count_run (fun b => key (f b)) l))).
Proof.
  destruct l as [|x0 [|x1 tl]]; try reflexivity.
  change (map f (x0 :: x1 :: tl)) with (f x0 :: f x1 :: map f tl).
  rewrite !count_run_cons.
  change (f x1 :: map f tl) with (map f (x1 :: tl)).
  rewrite take_descending_map, take_ascending_map.
  unfold key_lt. destruct (PrimFloat.ltb (key (f x1)) (key (f x0))); cbn [fst snd].
  - destruct (take_descending (fun b => key (f b)) x1 tl) as [d rest]; cbn [fst snd].
    f_equal. change (f x0 :: f x1 :: map f d) with (map f (x0 :: x1 :: d)).
    now rewrite map_rev.
  - destruct (take_ascending (fun b => key (f b)) x1 tl) as [d rest]; reflexivity.
Qed.

Lemma bisect_map pivot a : forall fuel l r,
  bisect key fuel (f pivot) (map f a) l r
  = bisect (fun b => key (f b)) fuel pivot a l r.
Proof.
  induction fuel as [|fuel IH]; intros l r; [reflexivity|].
  rewrite !bisect_S, nth_error_map.
  destruct (Nat.ltb l r); [|reflexivity].
  destruct (nth_error a (l + (r - l) / 2)) as [y|]; simpl; [|reflexivity].
  unfold key_lt. now rewrite !IH.
Qed.

Lemma binary_insert_map a pivot :
  binary_insert key (map f a) (f pivot)
  = map f (binary_insert (fun b => key (f b)) a pivot).
Proof.
  unfold binary_insert.
  rewrite length_map, bisect_map, map_app, firstn_map. simpl.
  now rewrite skipn_map.
Qed.

Lemma binarysort_map rest : forall run,
  binarysort key (map f run) (map f rest)
  = map f (binarysort (fun b => key (f b)) run rest).
Proof.
  unfold binarysort. induction rest as [|p rest IH]; intros run; simpl;
    [reflexivity|].
  now rewrite binary_insert_map, IH.
Qed.

Lemma sorted_reverse_map l :
  sorted_reverse key (map f l) = map f (sorted_reverse (fun b => key (f b)) l).
Proof.
  unfold sorted_reverse, list_sort.
  rewrite <- map_rev, count_run_map.
  destruct (count_run (fun b => key (f b)) (rev l)) as [run rest]. cbn [fst snd].
  now rewrite binarysort_map, map_rev.
Qed.

End SortingMap.

Lemma map_nth_seq {A : Type} (l : list A) (d : A) :
  map (fun k => nth k l d) (seq 0 (List.length l)) = l.
Proof.
  induction l as [|x xs IH]; simpl; [reflexivity|].
  f_equal. rewrite <- seq_shift, map_map. exact IH.
Qed.

Lemma seq_increasing len : forall start,
  StronglySorted (fun a b : nat => a < b) (seq start len).
Proof.
  induction len as [|len IH]; intros start; simpl; constructor.
  - apply IH.
  - apply Forall_forall. intros k Hk. apply in_seq in Hk. lia.
Qed.

Section SortingDescending.
Context {A : Type} (key : A -> float).

Lemma sorted_reverse_descending l :
  keys_not_nan key l -> descending key (sorted_reverse key l).
Proof.
  intros Hn. destruct l as [|d l']; [constructor|].
  set (l := d :: l') in *.
  rewrite <- (map_nth_seq l d), sorted_reverse_map.
  apply StronglySorted_map.
  assert (Hk : keys_not_nan (fun k => key (nth k l d)) (seq 0 (List.length l))).
  { unfold keys_not_nan in *. rewrite Forall_forall in *. intros k Hk.
    apply in_seq in Hk. apply Hn, nth_In. lia. }
  pose proof (sorted_reverse_sorted (fun k => key (nth k l d)) (fun k => k)
                _ Hk (seq_increasing _ 0)) as H.
  revert H. apply StronglySorted_weaken. intros x y _ _ [Hle _]. exact Hle.
Qed.

(** The head of the sorted list is a maximum of the input. *)
Lemma sorted_reverse_head_max l top rest :
  keys_not_nan key l -> sorted_reverse key l = top :: rest ->
  forall a, In a l -> float_ge (key top) (key a) = true.
Proof.
  intros Hl E a Ha.
  pose proof (sorted_reverse_descending l Hl) as Hs. rewrite E in Hs.
  apply (sorted_reverse_In key) in Ha. rewrite E in Ha.
  inversion Hs as [|? ? _ Hall]; subst.
  destruct Ha as [<-|Ha].
  - unfold float_ge. apply FloatOrder.leb_refl.
    assert (Hin : In top l)
      by (apply (sorted_reverse_In key); rewrite E; now left).
    unfold keys_not_nan in Hl. rewrite Forall_forall in Hl. now apply Hl.
  - rewrite Forall_forall in Hall. now apply Hall.
Qed.

End SortingDescending.

(** ** The rank stage *)

Lemma has_all_keys_inv p :
  has_all_keys p = true -> exists t pr r l, p = product_dict t pr r l.
Proof.
  destruct p as [[t|] [pr|] [r|] [l|]]; try discriminate.
  intros _. now exists t, pr, r, l.
Qed.

Lemma complete_app ps qs : complete (ps ++ qs) <-> complete ps /\ complete qs.
Proof. apply Forall_app. Qed.

Lemma complete_incl ps qs :
  (forall p, In p ps -> In p qs) -> complete qs -> complete ps.
Proof.
  unfold complete. rewrite !Forall_forall. auto.
Qed.

(** The loop appends exactly one line per product. *)
Lemma append_items_lines rt suffix ps :
  complete ps ->
  forall i, exists lines,
    item_lines rt suffix i ps lines /\
    forall acc, append_items rt suffix i ps acc = Ok (acc ++ lines)%list.
Proof.
  induction 1 as [|p ps Hp _ IH]; intros i.
  - exists []. split; [constructor|]. intros acc. simpl. now rewrite app_nil_r.
  - apply has_all_keys_inv in Hp. destruct Hp as (t & pr & r & l & ->).
    destruct (IH (S i)) as (lines & Hl & Happ).
    exists (item_text rt suffix i t pr r l :: lines). split.
    + now constructor.
    + intros acc. simpl. rewrite Happ, <- app_assoc. reflexivity.
Qed.

Lemma item_lines_length rt suffix i ps lines :
  item_lines rt suffix i ps lines -> List.length lines = List.length ps.
Proof. induction 1; simpl; congruence. Qed.

Lemma In_firstn {A : Type} (x : A) n l : In x (firstn n l) -> In x l.
Proof.
  revert l. induction n as [|n IH]; intros [|y l]; simpl; try tauto.
  intros [->|H]; auto.
Qed.

Lemma ranked_incl (ps : list product) p :
  In p (firstn 3 (sorted_reverse rating_key ps)) -> In p ps.
Proof.
  intros H. apply In_firstn in H. now apply sorted_reverse_In in H.
Qed.

(** On complete products the stage returns, and its two outputs are the
    cut sorted list and the lines joined by newlines. *)
Lemma rank_products_ok rt st :
  complete (all_products st) ->
  exists la lg lr,
    item_lines rt " [Amazon]" 1 (or_empty (amazon_products st)) la /\
    item_lines rt " [Google]" 1 (or_empty (google_products st)) lg /\
    item_lines rt "" 1 (firstn 3 (sorted_reverse rating_key (all_products st))) lr /\
    rank_products rt st =
      Ok [ W_ranked_products (firstn 3 (sorted_reverse rating_key (all_products st)));
           W_output_summary
             (String.concat nl
                ([query_line (user_input st); ""; amazon_header] ++ la
                 ++ [google_header] ++ lg ++ [top3_header] ++ lr)%list) ].
Proof.
  intros Hall.
  pose proof Hall as Hall'. apply complete_app in Hall'. destruct Hall' as [Ha Hg].
  assert (Hr : complete (firstn 3 (sorted_reverse rating_key (all_products st))))
    by (eapply complete_incl; [apply ranked_incl|exact Hall]).
  destruct (append_items_lines rt " [Amazon]" _ Ha 1) as (la & Hla & Ea).
  destruct (append_items_lines rt " [Google]" _ Hg 1) as (lg & Hlg & Eg).
  destruct (append_items_lines rt "" _ Hr 1) as (lr & Hlr & Er).
  exists la, lg, lr. repeat split; try assumption.
  unfold rank_products. fold (all_products st).
  rewrite Ea. cbn [res_bind]. rewrite Eg. cbn [res_bind]. rewrite Er. cbn [res_bind].
  repeat (rewrite <- ?app_assoc; cbn [app]). reflexivity.
Qed.

(** A missing key makes the renderer raise. *)
Lemma rank_products_missing_key rt :
  rank_products rt (mkState "q" (Some [mkProduct None (Some (PStr "1")) (Some 1%float) (Some PNone)]) None None None)
  = Raise KeyError.
Proof. reflexivity. Qed.

(** ** Where the ranked products come from *)

Lemma ranked_positions_spec ps :
  firstn 3 (sorted_reverse rating_key ps)
  = map (fun k => nth k ps no_product) (ranked_positions ps).
Proof.
  unfold ranked_positions, position_key.
  rewrite <- firstn_map, <- sorted_reverse_map, map_nth_seq. reflexivity.
Qed.

Lemma ranked_positions_range ps k :
  In k (ranked_positions ps) -> k < List.length ps.
Proof.
  unfold ranked_positions. intros H. apply In_firstn in H.
  apply sorted_reverse_In in H. apply in_seq in H. lia.
Qed.

Lemma NoDup_firstn {A : Type} n (l : list A) : NoDup l -> NoDup (firstn n l).
Proof.
  revert l. induction n as [|n IH]; intros [|x l] H; simpl; try constructor.
  - inversion H; subst. intros Hin. apply In_firstn in Hin. contradiction.
  - inversion H; subst. now apply IH.
Qed.

Lemma ranked_positions_NoDup ps : NoDup (ranked_positions ps).
Proof.
  unfold ranked_positions. apply NoDup_firstn.
  apply (Permutation_NoDup (l := seq 0 (List.length ps))).
  - apply Permutation_sym, sorted_reverse_perm.
  - apply seq_NoDup.
Qed.

Lemma position_keys_not_nan ps :
  nan_free ps -> keys_not_nan (position_key ps) (seq 0 (List.length ps)).
Proof.
  unfold nan_free, keys_not_nan, position_key. rewrite !Forall_forall.
  intros H k Hk. apply in_seq in Hk. apply H, nth_In. lia.
Qed.

(** When no rating is NaN: among positions whose ratings tie, an earlier
    position of the concatenation is ranked before a later one, and is
    ranked whenever the later one is. *)
Lemma ranked_positions_stable ps i j b :
  nan_free ps ->
  i < j -> j < List.length ps ->
  PrimFloat.eqb (position_key ps i) (position_key ps j) = true ->
  nth_error (ranked_positions ps) b = Some j ->
  exists a, a < b /\ nth_error (ranked_positions ps) a = Some i.
Proof.
  intros Hn Hij Hj Htie Hb. unfold ranked_positions in *.
  set (full := sorted_reverse (position_key ps) (seq 0 (List.length ps))) in *.
  rewrite nth_error_firstn in Hb.
  destruct (Nat.ltb b 3) eqn:Hb3; [|discriminate]. apply Nat.ltb_lt in Hb3.
  assert (Hi : In i full).
  { apply sorted_reverse_In, in_seq. lia. }
  apply In_nth_error in Hi. destruct Hi as [a Ha].
  assert (Hs : ties_in_order (position_key ps) (fun k => k) full)
    by (apply sorted_reverse_ties;
        [now apply position_keys_not_nan|apply seq_increasing]).
  destruct (Nat.lt_trichotomy a b) as [Hlt|[->|Hgt]].
  - exists a. split; [assumption|]. rewrite nth_error_firstn.
    replace (Nat.ltb a 3) with true by (symmetry; apply Nat.ltb_lt; lia).
    assumption.
  - rewrite Ha in Hb. injection Hb. lia.
  - pose proof (StronglySorted_nth _ _ Hs b a j i Hgt Hb Ha) as H.
    simpl in H. rewrite FloatOrder.eqb_sym in Htie. specialize (H Htie). lia.
Qed.


Lemma stable_sort_desc_unique (key : nat -> float) (l1 : list nat) :
  forall l2,
    Permutation l1 l2 ->
    descending key l1 -> ties_in_order key (fun k => k) l1 ->
    descending key l2 -> ties_in_order key (fun k => k) l2 ->
    l1 = l2.
Proof.
  induction l1 as [|x l1 IH]; intros l2 HP D1 T1 D2 T2.
  - apply Permutation_nil in HP. now subst.
  - destruct l2 as [|y l2].
    { apply Permutation_sym, Permutation_nil in HP. discriminate. }
    inversion D1 as [|? ? D1' A1]; subst. inversion T1 as [|? ? T1' B1]; subst.
    inversion D2 as [|? ? D2' A2]; subst. inversion T2 as [|? ? T2' B2]; subst.
    rewrite Forall_forall in A1, B1, A2, B2.
    assert (Exy : x = y).
    { destruct (Nat.eq_dec x y) as [E|N]; [exact E|exfalso].
      assert (Hx : In x l2).
      { assert (H : In x (y :: l2)) by (apply (Permutation_in _ HP); now left).
        destruct H as [H|H]; [congruence|exact H]. }
      assert (Hy : In y l1).
      { assert (H : In y (x :: l1))
          by (apply (Permutation_in _ (Permutation_sym HP)); now left).
        destruct H as [H|H]; [congruence|exact H]. }
      pose proof (A1 y Hy) as G1. pose proof (A2 x Hx) as G2.
      unfold float_ge in G1, G2.
      pose proof (FloatOrder.leb_antisym _ _ G1 G2) as E.
      pose proof (B1 y Hy) as P1. pose proof (B2 x Hx) as P2.
      rewrite FloatOrder.eqb_sym in E. specialize (P1 E).
      rewrite FloatOrder.eqb_sym in E. specialize (P2 E). lia. }
    subst y. f_equal. apply IH; auto.
    now apply Permutation_cons_inv in HP.
Qed.

(** Without NaN ratings the model's sort is the stable descending sort,
    and there is no other. *)
Lemma sorted_reverse_stable_sort_desc ps :
  nan_free ps ->
  stable_sort_desc ps (sorted_reverse (position_key ps) (seq 0 (List.length ps))).
Proof.
  intros Hn. split; [apply sorted_reverse_perm|]. split.
  - now apply sorted_reverse_descending, position_keys_not_nan.
  - apply sorted_reverse_ties; [now apply position_keys_not_nan|].
    apply seq_increasing.
Qed.

Lemma stable_sort_desc_ranked ps order :
  nan_free ps -> stable_sort_desc ps order ->
  firstn 3 (sorted_reverse rating_key ps)
  = map (fun k => nth k ps no_product) (firstn 3 order).
Proof.
  intros Hn (HP & HD & HT).
  destruct (sorted_reverse_stable_sort_desc ps Hn) as (HP' & HD' & HT').
  rewrite ranked_positions_spec. unfold ranked_positions. do 2 f_equal.
  apply (stable_sort_desc_unique (position_key ps)); auto.
  apply perm_trans with (seq 0 (List.length ps)); [exact HP'|].
  now apply Permutation_sym.
Qed.

(** C1, as stated, fails: with a NaN rating in the concatenation the first
    ranked product is not [>=] the second one. *)
Lemma rank_products_nan_counterexample :
  exists summary,
    rank_products sample_runtime nan_state =
      Ok [W_ranked_products [sample_nan; sample_one]; W_output_summary summary] /\
    float_ge (rating_key sample_nan) (rating_key sample_one) = false.
Proof.
  eexists. split; vm_compute; reflexivity.
Qed.

(** A NaN rating reaches the rank stage through a provider response: the
    ranked list then ends with the NaN-rated product, which the first
    product is not [>=]. *)
Example invoke_nan_rating :
  exists summary t,
    invoke (graph sample_runtime) (mkState "tv" None None None None) world_nan
    = (Ok (mkState "tv" (Some fallback_amazon)
                   (Some [product_dict (PStr "N-item") (PStr "N/A")
                                       PrimFloat.nan PNone])
                   (Some (fallback_amazon
                          ++ [product_dict (PStr "N-item") (PStr "N/A")
                                           PrimFloat.nan PNone])%list)
                   (Some summary)), t) /\
    float_ge 4.3%float PrimFloat.nan = false.
Proof. do 2 eexists. split; vm_compute; reflexivity. Qed.

(** C1 (amended): on complete product dicts the rank stage returns, as
    [ranked_products], the first 3 elements of the concatenation amazon
    then google sorted by [sorted(..., reverse=True)]; its length is
    [min 3 (len amazon + len google)] and each of its elements occurs in
    the concatenation.  When no rating is NaN this is the first 3 of the
    (one and only) stable sort by descending rating, and the first ranked
    product has a rating [>=] the rating of every product of the
    concatenation. *)
Theorem rank_products_top3 rt st :
  complete (all_products st) ->
  exists ranked summary,
    rank_products rt st =
      Ok [W_ranked_products ranked; W_output_summary summary] /\
    ranked = firstn 3 (sorted_reverse rating_key (all_products st)) /\
    List.length ranked =
      Nat.min 3 (List.length (or_empty (amazon_products st))
                 + List.length (or_empty (google_products st))) /\
    (forall p, In p ranked -> In p (all_products st)) /\
    (nan_free (all_products st) ->
     (exists order, stable_sort_desc (all_products st) order) /\
     (forall order, stable_sort_desc (all_products st) order ->
        ranked = map (fun k => nth k (all_products st) no_product)
                     (firstn 3 order)) /\
     (forall top rest, ranked = top :: rest ->
      forall p, In p (all_products st) ->
        float_ge (rating_key top) (rating_key p) = true)).
Proof.
  intros Hc.
  destruct (rank_products_ok rt st Hc) as (la & lg & lr & _ & _ & _ & E).
  eexists. eexists. split; [exact E|].
  split; [reflexivity|].
  split.
  - rewrite length_firstn, sorted_reverse_length.
    unfold all_products. now rewrite length_app.
  - split; [apply ranked_incl|].
    intros Hn. split; [|split].
    + eexists. now apply sorted_reverse_stable_sort_desc.
    + intros order Ho. now apply stable_sort_desc_ranked.
    + intros top rest Etop p Hp.
      destruct (sorted_reverse rating_key (all_products st)) as [|top' rest'] eqn:Es;
        [discriminate|].
      injection Etop as <- _.
      now apply (sorted_reverse_head_max rating_key _ _ _ Hn Es).
Qed.

Lemma rank_products_top3_witness :
  exists ranked summary,
    rank_products sample_runtime sample_state =
      Ok [W_ranked_products ranked; W_output_summary summary] /\
    ranked = firstn 3 (sorted_reverse rating_key (all_products sample_state)) /\
    List.length ranked =
      Nat.min 3 (List.length (or_empty (amazon_products sample_state))
                 + List.length (or_empty (google_products sample_state))) /\
    (forall p, In p ranked -> In p (all_products sample_state)) /\
    (nan_free (all_products sample_state) ->
     (exists order, stable_sort_desc (all_products sample_state) order) /\
     (forall order, stable_sort_desc (all_products sample_state) order ->
        ranked = map (fun k => nth k (all_products sample_state) no_product)
                     (firstn 3 order)) /\
     (forall top rest, ranked = top :: rest ->
      forall p, In p (all_products sample_state) ->
        float_ge (rating_key top) (rating_key p) = true)).
Proof.
  apply (rank_products_top3 sample_runtime sample_state).
  unfold complete, all_products; simpl.
  repeat constructor.
Defined.

(** No rating of the sample is NaN. *)
Example sample_state_nan_free : nan_free (all_products sample_state).
Proof. repeat constructor. Qed.

(** The sample ranks [A-item] (4.5) first, then the second B item (4.5,
    later in the concatenation), then the first B item (4.0). *)
Example rank_products_sample :
  exists summary,
    rank_products sample_runtime sample_state =
      Ok [W_ranked_products [sample_a; sample_b'; sample_b]; W_output_summary summary].
Proof. eexists. vm_compute. reflexivity. Qed.

(** C4, as stated, fails: with a NaN rating between them, equally rated
    products are not ranked in concatenation order.  On the amazon
    ratings 4.0, 4.0, NaN, 4.0, 4.0 and the google ratings 4.0, 4.5 the
    ranked list is the second amazon product, the NaN-rated one and the
    second google product: the second amazon product is ranked although
    the first, which has the same rating and stands before it in the
    concatenation, is not. *)
Lemma rank_products_tie_counterexample :
  exists summary,
    complete (all_products tie_state) /\
    rank_products sample_runtime tie_state =
      Ok [W_ranked_products [tie_a1; tie_a2; tie_g1]; W_output_summary summary] /\
    nth_error (all_products tie_state) 0 = Some tie_a0 /\
    nth_error (all_products tie_state) 1 = Some tie_a1 /\
    PrimFloat.eqb (rating_key tie_a0) (rating_key tie_a1) = true /\
    ~ In tie_a0 [tie_a1; tie_a2; tie_g1].
Proof.
  eexists. split; [repeat constructor|].
  split; [vm_compute; reflexivity|].
  repeat split; try reflexivity.
  intros [H|[H|[H|[]]]]; discriminate H.
Qed.

(** C4 (amended): the rank stage keeps rating ties in concatenation order
    when no rating is NaN.  [origin] lists, in rank order, the positions
    of the concatenation amazon then google that the ranked products are
    taken from (each position at most once, whatever the ratings); when no
    rating of the concatenation is NaN, if the products at positions
    [i < j] have equal ratings and position [j] is ranked, then position
    [i] is ranked too, and earlier. *)
Theorem rank_products_stable rt st :
  complete (all_products st) ->
  exists ranked summary origin,
    rank_products rt st =
      Ok [W_ranked_products ranked; W_output_summary summary] /\
    NoDup origin /\
    Forall2 (fun k p => nth_error (all_products st) k = Some p) origin ranked /\
    (nan_free (all_products st) ->
     forall i j p q b,
       i < j ->
       nth_error (all_products st) i = Some p ->
       nth_error (all_products st) j = Some q ->
       PrimFloat.eqb (rating_key p) (rating_key q) = true ->
       nth_error origin b = Some j ->
       exists a, a < b /\ nth_error origin a = Some i).
Proof.
  intros Hc.
  destruct (rank_products_ok rt st Hc) as (la & lg & lr & _ & _ & _ & E).
  eexists. eexists. exists (ranked_positions (all_products st)).
  split; [exact E|].
  split; [apply ranked_positions_NoDup|].
  split.
  - rewrite ranked_positions_spec.
    assert (H : Forall (fun k => k < List.length (all_products st))
                       (ranked_positions (all_products st)))
      by (apply Forall_forall; apply ranked_positions_range).
    induction H as [|k ks Hk _ IH]; simpl; constructor; [|exact IH].
    now apply nth_error_nth'.
  - intros Hn i j p q b Hij Hp Hq Htie Hb.
    apply (ranked_positions_stable _ i j b); auto.
    + apply nth_error_Some. congruence.
    + unfold position_key.
      now rewrite (nth_error_nth _ _ _ Hp), (nth_error_nth _ _ _ Hq).
Qed.

Lemma rank_products_stable_witness :
  exists ranked summary origin,
    rank_products sample_runtime sample_state =
      Ok [W_ranked_products ranked; W_output_summary summary] /\
    NoDup origin /\
    Forall2 (fun k p => nth_error (all_products sample_state) k = Some p)
            origin ranked /\
    (nan_free (all_products sample_state) ->
     forall i j p q b,
       i < j ->
       nth_error (all_products sample_state) i = Some p ->
       nth_error (all_products sample_state) j = Some q ->
       PrimFloat.eqb (rating_key p) (rating_key q) = true ->
       nth_error origin b = Some j ->
       exists a, a < b /\ nth_error origin a = Some i).
Proof.
  apply (rank_products_stable sample_runtime sample_state).
  unfold complete, all_products; simpl.
  repeat constructor.
Defined.

(** In the sample the tie between positions 0 and 2 (both 4.5) is ranked
    in that order. *)
Example ranked_positions_sample :
  ranked_positions (all_products sample_state) = [0; 2; 1].
Proof. vm_compute. reflexivity. Qed.

(** ** The provider clients *)

Lemma res_map_length {A B : Type} (f : A -> res B) xs ys :
  res_map f xs = Ok ys -> List.length ys = List.length xs.
Proof.
  revert ys. induction xs as [|x xs IH]; simpl; intros ys H.
  - now injection H as <-.
  - destruct (f x) as [y|e]; simpl in H; [|discriminate].
    destruct (res_map f xs) as [ys'|e]; simpl in H; [|discriminate].
    injection H as <-. simpl. now rewrite (IH ys').
Qed.

Lemma res_map_Forall {A B : Type} (f : A -> res B) (P : B -> Prop) xs ys :
  (forall x y, f x = Ok y -> P y) -> res_map f xs = Ok ys -> Forall P ys.
Proof.
  intros Hf. revert ys. induction xs as [|x xs IH]; simpl; intros ys H.
  - injection H as <-. constructor.
  - destruct (f x) as [y|e] eqn:Ey; simpl in H; [|discriminate].
    destruct (res_map f xs) as [ys'|e]; simpl in H; [|discriminate].
    injection H as <-. constructor; eauto.
Qed.

Lemma py_slice5_length v items :
  py_slice5 v = Ok items -> List.length items <= 5.
Proof.
  destruct v as [| | | |s|l|]; unfold py_slice5; try discriminate;
    intros H; injection H as <-.
  - rewrite length_map. exact (firstn_le_length 5 (list_ascii_of_string s)).
  - exact (firstn_le_length 5 l).
Qed.

Lemma amazon_record_complete rt p prod :
  amazon_record rt p = Ok prod -> has_all_keys prod = true.
Proof.
  unfold amazon_record. destruct p; simpl; try discriminate.
  destruct (py_float rt _); simpl; [|discriminate].
  now intros [= <-].
Qed.

Lemma google_record_complete rt p prod :
  google_record rt p = Ok prod -> has_all_keys prod = true.
Proof.
  unfold google_record. destruct p; simpl; try discriminate.
  destruct (py_float rt _); simpl; [|discriminate].
  now intros [= <-].
Qed.

Lemma amazon_parse_bound rt data ps :
  amazon_parse rt data = Ok ps -> List.length ps <= 5 /\ complete ps.
Proof.
  unfold amazon_parse. intros H.
  destruct (py_get data "data" (PDict [])) as [d|]; simpl in H; [|discriminate].
  destruct (py_get d "products" (PList [])) as [l|]; simpl in H; [|discriminate].
  destruct (py_slice5 l) as [items|] eqn:Es; simpl in H; [|discriminate].
  split.
  - rewrite (res_map_length _ _ _ H). eapply py_slice5_length; eassumption.
  - eapply res_map_Forall; [|exact H]. apply amazon_record_complete.
Qed.

Lemma google_parse_bound rt data ps :
  google_parse rt data = Ok ps -> List.length ps <= 5 /\ complete ps.
Proof.
  unfold google_parse. intros H.
  destruct (py_get data "shopping_results" (PList [])) as [l|]; simpl in H; [|discriminate].
  destruct (py_slice5 l) as [items|] eqn:Es; simpl in H; [|discriminate].
  split.
  - rewrite (res_map_length _ _ _ H). eapply py_slice5_length; eassumption.
  - eapply res_map_Forall; [|exact H]. apply google_record_complete.
Qed.

(** On a response of the documented shape the parsed list holds the
    records of the first five entries. *)
Lemma amazon_parse_entries rt kvs kvs' entries :
  assoc "data" kvs = Some (PDict kvs') ->
  assoc "products" kvs' = Some (PList entries) ->
  amazon_parse rt (PDict kvs) = res_map (amazon_record rt) (firstn 5 entries).
Proof.
  intros H1 H2. unfold amazon_parse, py_get, dict_get. simpl.
  rewrite H1. simpl. unfold dict_get. now rewrite H2.
Qed.

Lemma google_parse_entries rt kvs entries :
  assoc "shopping_results" kvs = Some (PList entries) ->
  google_parse rt (PDict kvs) = res_map (google_record rt) (firstn 5 entries).
Proof.
  intros H. unfold google_parse, py_get, dict_get. simpl. now rewrite H.
Qed.

Lemma fallback_amazon_complete : complete fallback_amazon.
Proof. repeat constructor. Qed.

Lemma fallback_google_complete : complete fallback_google.
Proof. repeat constructor. Qed.

Lemma search_amazon_products_contract rt q w :
  provider_contract (search_amazon_products rt q) (amazon_request w q)
                    (amazon_parse rt) fallback_amazon w.
Proof.
  unfold provider_contract, search_amazon_products, try_except, bind, ask,
    http_get, lift, ret, emit.
  destruct (requests_get w (amazon_request w q)) as [resp|e]; simpl.
  - destruct (Z.eqb (status_code resp) 200); simpl.
    + destruct (json resp) as [data|e]; simpl.
      * destruct (amazon_parse rt data) as [ps|e] eqn:Ep; simpl.
        -- apply amazon_parse_bound in Ep. destruct Ep as [Hlen _].
           destruct ps as [|p ps]; simpl.
           ++ do 2 eexists. repeat split; try reflexivity; [discriminate|unfold fallback_amazon, fallback_google; simpl; lia].
           ++ do 2 eexists. repeat split; try reflexivity; [discriminate|exact Hlen].
        -- do 2 eexists. repeat split; try reflexivity; [discriminate|unfold fallback_amazon, fallback_google; simpl; lia].
      * do 2 eexists. repeat split; try reflexivity; [discriminate|unfold fallback_amazon, fallback_google; simpl; lia].
    + do 2 eexists. repeat split; try reflexivity; [discriminate|unfold fallback_amazon, fallback_google; simpl; lia].
  - do 2 eexists. repeat split; try reflexivity; [discriminate|unfold fallback_amazon, fallback_google; simpl; lia].
Qed.

Lemma search_google_shopping_contract rt q w :
  provider_contract (search_google_shopping rt q) (google_request w q)
                    (google_parse rt) fallback_google w.
Proof.
  unfold provider_contract, search_google_shopping, try_except, bind, ask,
    http_get, lift, ret, emit.
  destruct (requests_get w (google_request w q)) as [resp|e]; simpl.
  - destruct (Z.eqb (status_code resp) 200); simpl.
    + destruct (json resp) as [data|e]; simpl.
      * destruct (google_parse rt data) as [ps|e] eqn:Ep; simpl.
        -- apply google_parse_bound in Ep. destruct Ep as [Hlen _].
           destruct ps as [|p ps]; simpl.
           ++ do 2 eexists. repeat split; try reflexivity; [discriminate|unfold fallback_amazon, fallback_google; simpl; lia].
           ++ do 2 eexists. repeat split; try reflexivity; [discriminate|exact Hlen].
        -- do 2 eexists. repeat split; try reflexivity; [discriminate|unfold fallback_amazon, fallback_google; simpl; lia].
      * do 2 eexists. repeat split; try reflexivity; [discriminate|unfold fallback_amazon, fallback_google; simpl; lia].
    + do 2 eexists. repeat split; try reflexivity; [discriminate|unfold fallback_amazon, fallback_google; simpl; lia].
  - do 2 eexists. repeat split; try reflexivity; [discriminate|unfold fallback_amazon, fallback_google; simpl; lia].
Qed.

Lemma search_amazon_products_complete rt q w :
  exists ps t, search_amazon_products rt q w = (Ok ps, t) /\ complete ps.
Proof.
  unfold search_amazon_products, try_except, bind, ask, http_get, lift, ret, emit.
  destruct (requests_get w (amazon_request w q)) as [resp|e]; simpl;
    [destruct (Z.eqb (status_code resp) 200); simpl;
     [destruct (json resp) as [data|e]; simpl;
      [destruct (amazon_parse rt data) as [ps|e] eqn:Ep; simpl|]|]|];
    try (do 2 eexists; split; [reflexivity|apply fallback_amazon_complete]).
  apply amazon_parse_bound in Ep. destruct Ep as [_ Hc].
  destruct ps as [|p ps]; simpl;
    do 2 eexists; (split; [reflexivity|]);
    [apply fallback_amazon_complete|exact Hc].
Qed.

Lemma search_google_shopping_complete rt q w :
  exists ps t, search_google_shopping rt q w = (Ok ps, t) /\ complete ps.
Proof.
  unfold search_google_shopping, try_except, bind, ask, http_get, lift, ret, emit.
  destruct (requests_get w (google_request w q)) as [resp|e]; simpl;
    [destruct (Z.eqb (status_code resp) 200); simpl;
     [destruct (json resp) as [data|e]; simpl;
      [destruct (google_parse rt data) as [ps|e] eqn:Ep; simpl|]|]|];
    try (do 2 eexists; split; [reflexivity|apply fallback_google_complete]).
  apply google_parse_bound in Ep. destruct Ep as [_ Hc].
  destruct ps as [|p ps]; simpl;
    do 2 eexists; (split; [reflexivity|]);
    [apply fallback_google_complete|exact Hc].
Qed.



(** The fallback scenario of the spec: provider A answers HTTP 500. *)
Example search_amazon_products_http_500 :
  search_amazon_products sample_runtime "iPhone 14" world_500_null
  = (Ok fallback_amazon,
     [EvHttpGet (amazon_request world_500_null "iPhone 14")]).
Proof. reflexivity. Qed.

Example search_amazon_products_timeout :
  search_amazon_products sample_runtime "iPhone 14" world_timeout
  = (Ok fallback_amazon,
     [EvHttpGet (amazon_request world_timeout "iPhone 14");
      EvPrint "[Amazon Error] " Timeout]).
Proof. reflexivity. Qed.

Example search_amazon_products_scenario :
  search_amazon_products sample_runtime "iPhone 14" world_scenario
  = (Ok [sample_a], [EvHttpGet (amazon_request world_scenario "iPhone 14")]).
Proof. reflexivity. Qed.

Example search_google_shopping_scenario :
  search_google_shopping sample_runtime "iPhone 14" world_scenario
  = (Ok [sample_b], [EvHttpGet (google_request world_scenario "iPhone 14")]).
Proof. reflexivity. Qed.

(** C10: whatever the network does, every product dict a provider client
    returns, parsed or fallback, has the four keys title, price, rating
    and link (the rating a float), so the rank stage, which reads them
    with [p[key]], returns on the lists of the two clients instead of
    raising KeyError. *)
Theorem provider_records_have_all_keys rt q w :
  exists a ta g tg,
    search_amazon_products rt q w = (Ok a, ta) /\
    search_google_shopping rt q w = (Ok g, tg) /\
    complete a /\ complete g /\
    forall u r s, exists ranked summary,
      rank_products rt (mkState u (Some a) (Some g) r s)
      = Ok [W_ranked_products ranked; W_output_summary summary].
Proof.
  destruct (search_amazon_products_complete rt q w) as (a & ta & Ea & Ha).
  destruct (search_google_shopping_complete rt q w) as (g & tg & Eg & Hg).
  exists a, ta, g, tg. repeat split; try assumption.
  intros u r s.
  destruct (rank_products_ok rt (mkState u (Some a) (Some g) r s))
    as (la & lg & lr & _ & _ & _ & E).
  - apply complete_app. now split.
  - eexists. eexists. exact E.
Qed.

(** ** Defaults for missing fields *)

Lemma float_of_int_0 : float_of_int 0 = Ok 0%float.
Proof. reflexivity. Qed.

Lemma res_map_total {A B : Type} (f : A -> res B) (P : A -> Prop) xs :
  (forall x, P x -> exists y, f x = Ok y) -> Forall P xs ->
  exists ys, res_map f xs = Ok ys /\ List.length ys = List.length xs.
Proof.
  intros Hf. induction 1 as [|x xs Hx _ (ys & E & L)]; simpl.
  - now exists [].
  - destruct (Hf x Hx) as [y ->]. rewrite E. simpl.
    exists (y :: ys). simpl. now rewrite L.
Qed.

(** A 200 response: the client returns what the parser gives, or the
    fallback list after printing the exception. *)
Lemma search_amazon_products_200 rt q w resp data :
  requests_get w (amazon_request w q) = Ok resp ->
  status_code resp = 200%Z -> json resp = Ok data ->
  search_amazon_products rt q w
  = match amazon_parse rt data with
    | Ok ps => (Ok (or_fallback ps fallback_amazon),
                [EvHttpGet (amazon_request w q)])
    | Raise e => (Ok fallback_amazon,
                  [EvHttpGet (amazon_request w q); EvPrint "[Amazon Error] " e])
    end.
Proof.
  intros H Hs Hj.
  unfold search_amazon_products, try_except, bind, ask, http_get, lift, ret, emit.
  rewrite H, Hs, Hj. simpl.
  destruct (amazon_parse rt data); reflexivity.
Qed.

Lemma search_google_shopping_200 rt q w resp data :
  requests_get w (google_request w q) = Ok resp ->
  status_code resp = 200%Z -> json resp = Ok data ->
  search_google_shopping rt q w
  = match google_parse rt data with
    | Ok ps => (Ok (or_fallback ps fallback_google),
                [EvHttpGet (google_request w q)])
    | Raise e => (Ok fallback_google,
                  [EvHttpGet (google_request w q);
                   EvPrint "[Google Shopping Error] " e])
    end.
Proof.
  intros H Hs Hj.
  unfold search_google_shopping, try_except, bind, ask, http_get, lift, ret, emit.
  rewrite H. simpl. rewrite Hs, Hj. simpl.
  destruct (google_parse rt data); reflexivity.
Qed.

Lemma res_map_raise {A B : Type} (f : A -> res B) xs x e :
  In x xs -> f x = Raise e -> exists e', res_map f xs = Raise e'.
Proof.
  induction xs as [|y ys IH]; simpl; [intros []|].
  intros [->|Hin] Hx.
  - rewrite Hx. now exists e.
  - destruct (f y) as [b|e1]; simpl; [|now exists e1].
    destruct (IH Hin Hx) as [e' ->]. now exists e'.
Qed.

(** C3, as stated, fails: a null rating in one entry of a 200 response
    makes provider B drop every parsed record (the first entry is fine on
    its own) and return its fallback list; provider B has no default for a
    missing link, and provider A none for a missing price. *)
Lemma record_defaults_counterexample :
  search_google_shopping sample_runtime "q" world_500_null
  = (Ok fallback_google,
     [EvHttpGet (google_request world_500_null "q");
      EvPrint "[Google Shopping Error] " TypeError]) /\
  google_record sample_runtime
    (PDict [("title", PStr "X"); ("rating", PFloat 4.5%float)])
  = Ok (product_dict (PStr "X") (PStr "N/A") 4.5%float PNone) /\
  amazon_record sample_runtime (PDict [("product_title", PStr "X")])
  = Ok (product_dict (PStr "X") PNone 0%float (PStr "Link not available")).
Proof. repeat split; reflexivity. Qed.

Lemma res_map_Forall2 {A B : Type} (f : A -> res B) xs ys :
  res_map f xs = Ok ys -> Forall2 (fun x y => f x = Ok y) xs ys.
Proof.
  revert ys. induction xs as [|x xs IH]; simpl; intros ys H.
  - injection H as <-. constructor.
  - destruct (f x) as [y|e] eqn:Ey; simpl in H; [|discriminate].
    destruct (res_map f xs) as [ys'|e]; simpl in H; [|discriminate].
    injection H as <-. constructor; auto.
Qed.

Lemma amazon_record_dict rt kvs :
  amazon_record rt (PDict kvs)
  = (r <- py_float rt (py_or (dict_get kvs "product_star_rating" (PStr "0"))
                             (PInt 0)) ;;
     Ok (product_dict (dict_get kvs "product_title" PNone)
                      (dict_get kvs "product_price" PNone)
                      r
                      (py_or (dict_get kvs "product_url" PNone)
                             (PStr "Link not available"))))%res.
Proof. reflexivity. Qed.

Lemma google_record_dict rt kvs :
  google_record rt (PDict kvs)
  = (r <- py_float rt (dict_get kvs "rating" (PFloat 0%float)) ;;
     Ok (product_dict (dict_get kvs "title" PNone)
                      (dict_get kvs "price" (PStr "N/A"))
                      r
                      (dict_get kvs "link" PNone)))%res.
Proof. reflexivity. Qed.

(** The rating provider A converts: [p.get("product_star_rating", "0") or 0]. *)
Lemma amazon_rating_cases rt kvs :
  float_of_str rt "0" = Some 0%float ->
  py_float rt (py_or (dict_get kvs "product_star_rating" (PStr "0")) (PInt 0))
  = match assoc "product_star_rating" kvs with
    | None => Ok 0%float
    | Some v => if py_truthy v then py_float rt v else Ok 0%float
    end.
Proof.
  intros Hrt. unfold dict_get, py_or.
  destruct (assoc "product_star_rating" kvs) as [v|].
  - destruct (py_truthy v); reflexivity.
  - simpl. now rewrite Hrt.
Qed.

(** C3 (amended).  For an entry that is a JSON object:

    - provider A's record has rating 0.0 when the star rating is absent,
      null or otherwise falsy, and the converted star rating when [float]
      accepts it; its title and price are the entry's, [None] when
      absent; its link is the entry's URL, or "Link not available" when
      the URL is absent or falsy;
    - provider B's record has rating 0.0 when the rating key is absent
      and the converted rating when [float] accepts it; its title and
      link are the entry's, [None] when absent; its price is the entry's,
      or "N/A" when the key is absent;
    - a rating that [float] rejects makes the record raise.

    For a 200 response: when each of the first five entries is a JSON
    object whose rating is absent (for provider A: or falsy) or accepted
    by [float], the client returns one record per entry, in order, and
    prints nothing; when one of them holds a rating that [float] rejects,
    the client prints its diagnostic and returns its fallback list, none
    of the parsed records. *)
Theorem record_defaults rt :
  float_of_str rt "0" = Some 0%float ->
  let absent_or_falsy := fun (k : string) (kvs : list (string * pyval)) =>
    assoc k kvs = None \/
    exists v, assoc k kvs = Some v /\ py_truthy v = false in
  let value_or := fun (k : string) (kvs : list (string * pyval))
                      (default : pyval) =>
    match assoc k kvs with Some v => v | None => default end in
  let amazon_rated := fun (kvs : list (string * pyval)) =>
    absent_or_falsy "product_star_rating" kvs \/
    exists v f, assoc "product_star_rating" kvs = Some v /\
                py_float rt v = Ok f in
  let google_rated := fun (kvs : list (string * pyval)) =>
    assoc "rating" kvs = None \/
    exists v f, assoc "rating" kvs = Some v /\ py_float rt v = Ok f in
  (* provider A, one entry *)
  (forall kvs, absent_or_falsy "product_star_rating" kvs ->
     exists p, amazon_record rt (PDict kvs) = Ok p /\ rating p = Some 0%float) /\
  (forall kvs v f,
     assoc "product_star_rating" kvs = Some v -> py_truthy v = true ->
     py_float rt v = Ok f ->
     exists p, amazon_record rt (PDict kvs) = Ok p /\ rating p = Some f) /\
  (forall kvs v e,
     assoc "product_star_rating" kvs = Some v -> py_truthy v = true ->
     py_float rt v = Raise e ->
     amazon_record rt (PDict kvs) = Raise e) /\
  (forall kvs p, amazon_record rt (PDict kvs) = Ok p ->
     title p = Some (value_or "product_title" kvs PNone) /\
     price p = Some (value_or "product_price" kvs PNone) /\
     (absent_or_falsy "product_url" kvs ->
      link p = Some (PStr "Link not available")) /\
     (forall v, assoc "product_url" kvs = Some v -> py_truthy v = true ->
      link p = Some v)) /\
  (* provider B, one entry *)
  (forall kvs, assoc "rating" kvs = None ->
     exists p, google_record rt (PDict kvs) = Ok p /\ rating p = Some 0%float) /\
  (forall kvs v f,
     assoc "rating" kvs = Some v -> py_float rt v = Ok f ->
     exists p, google_record rt (PDict kvs) = Ok p /\ rating p = Some f) /\
  (forall kvs v e,
     assoc "rating" kvs = Some v -> py_float rt v = Raise e ->
     google_record rt (PDict kvs) = Raise e) /\
  (forall kvs p, google_record rt (PDict kvs) = Ok p ->
     title p = Some (value_or "title" kvs PNone) /\
     price p = Some (value_or "price" kvs (PStr "N/A")) /\
     link p = Some (value_or "link" kvs PNone)) /\
  (* the list of a 200 response, provider A *)
  (forall q w resp kvs kvs' entries,
     requests_get w (amazon_request w q) = Ok resp ->
     status_code resp = 200%Z -> json resp = Ok (PDict kvs) ->
     assoc "data" kvs = Some (PDict kvs') ->
     assoc "products" kvs' = Some (PList entries) ->
     (entries <> [] ->
      Forall (fun x => exists e, x = PDict e /\ amazon_rated e)
             (firstn 5 entries) ->
      exists ps,
        search_amazon_products rt q w
        = (Ok ps, [EvHttpGet (amazon_request w q)]) /\
        Forall2 (fun x p => amazon_record rt x = Ok p) (firstn 5 entries) ps) /\
     (forall bad v e,
        In (PDict bad) (firstn 5 entries) ->
        assoc "product_star_rating" bad = Some v -> py_truthy v = true ->
        py_float rt v = Raise e ->
        exists e',
          search_amazon_products rt q w
          = (Ok fallback_amazon,
             [EvHttpGet (amazon_request w q); EvPrint "[Amazon Error] " e']))) /\
  (* the list of a 200 response, provider B *)
  (forall q w resp kvs entries,
     requests_get w (google_request w q) = Ok resp ->
     status_code resp = 200%Z -> json resp = Ok (PDict kvs) ->
     assoc "shopping_results" kvs = Some (PList entries) ->
     (entries <> [] ->
      Forall (fun x => exists e, x = PDict e /\ google_rated e)
             (firstn 5 entries) ->
      exists ps,
        search_google_shopping rt q w
        = (Ok ps, [EvHttpGet (google_request w q)]) /\
        Forall2 (fun x p => google_record rt x = Ok p) (firstn 5 entries) ps) /\
     (forall bad v e,
        In (PDict bad) (firstn 5 entries) ->
        assoc "rating" bad = Some v -> py_float rt v = Raise e ->
        exists e',
          search_google_shopping rt q w
          = (Ok fallback_google,
             [EvHttpGet (google_request w q);
              EvPrint "[Google Shopping Error] " e']))).
Proof.
  intros Hrt absent_or_falsy value_or amazon_rated google_rated.
  assert (A1 : forall kvs, absent_or_falsy "product_star_rating" kvs ->
            exists p, amazon_record rt (PDict kvs) = Ok p /\ rating p = Some 0%float).
  { intros kvs H. rewrite amazon_record_dict, (amazon_rating_cases rt kvs Hrt).
    destruct H as [->|(v & -> & ->)]; eexists; split; reflexivity. }
  assert (A2 : forall kvs v f,
            assoc "product_star_rating" kvs = Some v -> py_truthy v = true ->
            py_float rt v = Ok f ->
            exists p, amazon_record rt (PDict kvs) = Ok p /\ rating p = Some f).
  { intros kvs v f Hk Ht Hf.
    rewrite amazon_record_dict, (amazon_rating_cases rt kvs Hrt), Hk, Ht, Hf.
    eexists; split; reflexivity. }
  assert (A3 : forall kvs v e,
            assoc "product_star_rating" kvs = Some v -> py_truthy v = true ->
            py_float rt v = Raise e -> amazon_record rt (PDict kvs) = Raise e).
  { intros kvs v e Hk Ht Hf.
    now rewrite amazon_record_dict, (amazon_rating_cases rt kvs Hrt), Hk, Ht, Hf. }
  assert (B1 : forall kvs, assoc "rating" kvs = None ->
            exists p, google_record rt (PDict kvs) = Ok p /\ rating p = Some 0%float).
  { intros kvs H. rewrite google_record_dict. unfold dict_get at 1. rewrite H.
    eexists; split; reflexivity. }
  assert (B2 : forall kvs v f,
            assoc "rating" kvs = Some v -> py_float rt v = Ok f ->
            exists p, google_record rt (PDict kvs) = Ok p /\ rating p = Some f).
  { intros kvs v f Hk Hf. rewrite google_record_dict. unfold dict_get at 1.
    rewrite Hk, Hf. eexists; split; reflexivity. }
  assert (B3 : forall kvs v e,
            assoc "rating" kvs = Some v -> py_float rt v = Raise e ->
            google_record rt (PDict kvs) = Raise e).
  { intros kvs v e Hk Hf. rewrite google_record_dict. unfold dict_get at 1.
    now rewrite Hk, Hf. }
  split; [exact A1|]. split; [exact A2|]. split; [exact A3|].
  split.
  { intros kvs p. rewrite amazon_record_dict.
    destruct (py_float rt _) as [r|e]; [|discriminate].
    cbn [res_bind]. intros E. injection E as <-. cbn [title price link product_dict].
    split; [reflexivity|]. split; [reflexivity|]. split.
    - intros [H|(v & H & Hv)]; unfold dict_get, py_or; rewrite H.
      + reflexivity.
      + now rewrite Hv.
    - intros v H Hv. unfold dict_get, py_or. now rewrite H, Hv. }
  split; [exact B1|]. split; [exact B2|]. split; [exact B3|].
  split.
  { intros kvs p. rewrite google_record_dict.
    destruct (py_float rt _) as [r|e]; [|discriminate].
    cbn [res_bind]. intros E. injection E as <-. repeat split. }
  split.
  - intros q w resp kvs kvs' entries Hr Hs Hj Hk Hk'.
    rewrite (search_amazon_products_200 rt q w resp _ Hr Hs Hj),
      (amazon_parse_entries rt kvs kvs' entries Hk Hk').
    split.
    + intros Hne Hall.
      destruct (res_map_total (amazon_record rt) _ (firstn 5 entries)
                  (fun x H => H)) as (ps & E & Hlen).
      { revert Hall. apply Forall_impl.
        intros x (e & -> & [H|(v & f & Hv & Hf)]).
        - destruct (A1 e H) as (p & Hp & _). now exists p.
        - destruct (py_truthy v) eqn:Ht.
          + destruct (A2 e v f Hv Ht Hf) as (p & Hp & _). now exists p.
          + destruct (A1 e) as (p & Hp & _); [right; now exists v|now exists p]. }
      rewrite E. exists ps. split.
      * destruct ps as [|p ps]; [|reflexivity].
        destruct entries; [contradiction|discriminate].
      * now apply res_map_Forall2.
    + intros bad v e Hin Hv Ht Hf.
      destruct (res_map_raise _ _ _ _ Hin (A3 bad v e Hv Ht Hf)) as [e' ->].
      now exists e'.
  - intros q w resp kvs entries Hr Hs Hj Hk.
    rewrite (search_google_shopping_200 rt q w resp _ Hr Hs Hj),
      (google_parse_entries rt kvs entries Hk).
    split.
    + intros Hne Hall.
      destruct (res_map_total (google_record rt) _ (firstn 5 entries)
                  (fun x H => H)) as (ps & E & Hlen).
      { revert Hall. apply Forall_impl.
        intros x (e & -> & [H|(v & f & Hv & Hf)]).
        - destruct (B1 e H) as (p & Hp & _). now exists p.
        - destruct (B2 e v f Hv Hf) as (p & Hp & _). now exists p. }
      rewrite E. exists ps. split.
      * destruct ps as [|p ps]; [|reflexivity].
        destruct entries; [contradiction|discriminate].
      * now apply res_map_Forall2.
    + intros bad v e Hin Hv Hf.
      destruct (res_map_raise _ _ _ _ Hin (B3 bad v e Hv Hf)) as [e' ->].
      now exists e'.
Qed.

(** With the sample interpreter: an entry of provider A that only has a
    title gets rating 0.0 and the link sentinel; a rated entry of
    provider B without price and link keeps its rating and gets the price
    "N/A"; and in [world_500_null], where the second entry's rating is
    null, provider B's client returns its fallback list. *)
Lemma record_defaults_witness :
  float_of_str sample_runtime "0" = Some 0%float /\
  (exists p,
     amazon_record sample_runtime (PDict [("product_title", PStr "X")]) = Ok p /\
     rating p = Some 0%float /\ title p = Some (PStr "X") /\
     price p = Some PNone /\ link p = Some (PStr "Link not available")) /\
  (exists p,
     google_record sample_runtime
       (PDict [("title", PStr "X"); ("rating", PFloat 4.5%float)]) = Ok p /\
     rating p = Some 4.5%float /\ title p = Some (PStr "X") /\
     price p = Some (PStr "N/A") /\ link p = Some PNone) /\
  (exists e,
     search_google_shopping sample_runtime "q" world_500_null
     = (Ok fallback_google,
        [EvHttpGet (google_request world_500_null "q");
         EvPrint "[Google Shopping Error] " e])).
Proof.
  assert (H : float_of_str sample_runtime "0" = Some 0%float) by reflexivity.
  split; [exact H|].
  destruct (record_defaults sample_runtime H)
    as (A1 & _ & _ & A4 & _ & B2 & _ & B4 & _ & LB).
  split; [|split].
  - destruct (A1 [("product_title", PStr "X")]) as (p & Ep & Hr);
      [left; reflexivity|].
    exists p. split; [exact Ep|]. split; [exact Hr|].
    destruct (A4 _ p Ep) as (Ht & Hp & Hl & _).
    split; [exact Ht|]. split; [exact Hp|]. apply Hl. left; reflexivity.
  - destruct (B2 [("title", PStr "X"); ("rating", PFloat 4.5%float)]
                 (PFloat 4.5%float) 4.5%float eq_refl eq_refl) as (p & Ep & Hr).
    exists p. split; [exact Ep|]. split; [exact Hr|].
    destruct (B4 _ p Ep) as (Ht & Hp & Hl). auto.
  - destruct (LB "q" world_500_null
                (mkResponse 200
                   (google_body
                      [ PDict [("title", PStr "X"); ("rating", PFloat 4.5%float)];
                        PDict [("title", PStr "Y"); ("rating", PNone)] ]))
                [("shopping_results",
                  PList [ PDict [("title", PStr "X"); ("rating", PFloat 4.5%float)];
                          PDict [("title", PStr "Y"); ("rating", PNone)] ])]
                [ PDict [("title", PStr "X"); ("rating", PFloat 4.5%float)];
                  PDict [("title", PStr "Y"); ("rating", PNone)] ]
                eq_refl eq_refl eq_refl eq_refl) as (_ & Hbad).
    apply (Hbad [("title", PStr "Y"); ("rating", PNone)] PNone TypeError).
    + right. left. reflexivity.
    + reflexivity.
    + reflexivity.
Defined.

(** ** The graph *)

Lemma run_from_step fuel g current st f :
  String.eqb current END = false ->
  assoc current (nodes g) = Some f ->
  run_from (S fuel) g current st
  = (emit (EvNode current) ;;
     u <- f st ;;
     match assoc current (edges g) with
     | Some next => run_from fuel g next (apply_update st u)
     | None => ret (apply_update st u)
     end)%M.
Proof.
  intros H1 H2. simpl. now rewrite H1, H2.
Qed.

Lemma run_from_END fuel g st : run_from fuel g END st = ret st.
Proof. destruct fuel; reflexivity. Qed.

Lemma invoke_graph rt st0 w a ta g tg :
  search_amazon_products rt (user_input st0) w = (Ok a, ta) ->
  search_google_shopping rt (user_input st0) w = (Ok g, tg) ->
  invoke (graph rt) st0 w
  = (match rank_products rt (mkState (user_input st0) (Some a) (Some g)
                                     (ranked_products st0) (output_summary st0)) with
     | Ok u => Ok (apply_update (mkState (user_input st0) (Some a) (Some g)
                                         (ranked_products st0) (output_summary st0)) u)
     | Raise e => Raise e
     end,
     ([EvNode "extract_product"; EvNode "search_amazon"] ++ ta
      ++ [EvNode "search_google"] ++ tg ++ [EvNode "rank_products"])%list).
Proof.
  intros Ea Eg.
  change (invoke (graph rt) st0)
    with (run_from (S 24) (graph rt) "extract_product" st0).
  rewrite (run_from_step _ _ _ _ extract_product) by reflexivity.
  change (assoc "extract_product" (edges (graph rt))) with (Some "search_amazon").
  unfold bind at 1 2. unfold emit at 1. unfold extract_product at 1, ret at 1.
  cbn [app apply_update fold_left apply_write].
  rewrite (run_from_step _ _ _ _ (search_amazon rt)) by reflexivity.
  change (assoc "search_amazon" (edges (graph rt))) with (Some "search_google").
  unfold bind at 1 2. unfold emit at 1. unfold search_amazon at 1.
  unfold bind at 1. cbn [user_input]. rewrite Ea. unfold ret at 1.
  cbn [app apply_update fold_left apply_write user_input amazon_products
       google_products ranked_products output_summary].
  rewrite (run_from_step _ _ _ _ (search_google rt)) by reflexivity.
  change (assoc "search_google" (edges (graph rt))) with (Some "rank_products").
  unfold bind at 1 2. unfold emit at 1. unfold search_google at 1.
  unfold bind at 1. cbn [user_input]. rewrite Eg. unfold ret at 1.
  cbn [app apply_update fold_left apply_write user_input amazon_products
       google_products ranked_products output_summary].
  rewrite (run_from_step _ _ _ _ (rank_products_node rt)) by reflexivity.
  change (assoc "rank_products" (edges (graph rt))) with (Some END).
  unfold bind at 1 2. unfold emit at 1. unfold rank_products_node, lift.
  destruct (rank_products rt _) as [u|e].
  - rewrite run_from_END. unfold ret. cbn [app]. now rewrite !app_nil_r.
  - cbn [app]. now rewrite !app_nil_r.
Qed.

Lemma stages_app t1 t2 : stages (t1 ++ t2) = (stages t1 ++ stages t2)%list.
Proof.
  induction t1 as [|ev t1 IH]; simpl; [reflexivity|].
  destruct (is_node_event ev); simpl; now rewrite IH.
Qed.

Lemma network_calls_app t1 t2 :
  network_calls (t1 ++ t2) = (network_calls t1 ++ network_calls t2)%list.
Proof. apply filter_app. Qed.

(** A provider client logs its request and, on an exception, one
    diagnostic line; nothing else. *)
Lemma search_amazon_products_trace rt q w :
  snd (search_amazon_products rt q w) = [EvHttpGet (amazon_request w q)] \/
  exists e, snd (search_amazon_products rt q w)
            = [EvHttpGet (amazon_request w q); EvPrint "[Amazon Error] " e].
Proof.
  unfold search_amazon_products, try_except, bind, ask, http_get, lift, ret, emit.
  destruct (requests_get w (amazon_request w q)) as [resp|e]; simpl;
    [destruct (Z.eqb (status_code resp) 200); simpl;
     [destruct (json resp) as [data|e]; simpl;
      [destruct (amazon_parse rt data) as [ps|e]; simpl|]|]|];
    (now left) || (right; eexists; reflexivity).
Qed.

Lemma search_google_shopping_trace rt q w :
  snd (search_google_shopping rt q w) = [EvHttpGet (google_request w q)] \/
  exists e, snd (search_google_shopping rt q w)
            = [EvHttpGet (google_request w q); EvPrint "[Google Shopping Error] " e].
Proof.
  unfold search_google_shopping, try_except, bind, ask, http_get, lift, ret, emit.
  destruct (requests_get w (google_request w q)) as [resp|e]; simpl;
    [destruct (Z.eqb (status_code resp) 200); simpl;
     [destruct (json resp) as [data|e]; simpl;
      [destruct (google_parse rt data) as [ps|e]; simpl|]|]|];
    (now left) || (right; eexists; reflexivity).
Qed.

Lemma rank_products_writes rt st u :
  rank_products rt st = Ok u ->
  written_fields u = [F_ranked_products; F_output_summary].
Proof.
  unfold rank_products.
  destruct (append_items rt " [Amazon]" _ _ _) as [l1|]; simpl; [|discriminate].
  destruct (append_items rt " [Google]" _ _ _) as [l2|]; simpl; [|discriminate].
  destruct (append_items rt "" _ _ _) as [l3|]; simpl; [|discriminate].
  now intros [= <-].
Qed.

(** One run of the graph, from any input state. *)
Lemma invoke_pipeline rt st0 w :
  exists a ta g tg ranked summary,
    search_amazon_products rt (user_input st0) w = (Ok a, ta) /\
    search_google_shopping rt (user_input st0) w = (Ok g, tg) /\
    rank_products rt (mkState (user_input st0) (Some a) (Some g)
                              (ranked_products st0) (output_summary st0))
    = Ok [W_ranked_products ranked; W_output_summary summary] /\
    invoke (graph rt) st0 w
    = (Ok (mkState (user_input st0) (Some a) (Some g) (Some ranked) (Some summary)),
       ([EvNode "extract_product"; EvNode "search_amazon"] ++ ta
        ++ [EvNode "search_google"] ++ tg ++ [EvNode "rank_products"])%list).
Proof.
  destruct (search_amazon_products_complete rt (user_input st0) w)
    as (a & ta & Ea & Ha).
  destruct (search_google_shopping_complete rt (user_input st0) w)
    as (g & tg & Eg & Hg).
  destruct (rank_products_ok rt (mkState (user_input st0) (Some a) (Some g)
                                         (ranked_products st0) (output_summary st0)))
    as (la & lg & lr & _ & _ & _ & E).
  { apply complete_app. now split. }
  exists a, ta, g, tg. do 2 eexists.
  split; [exact Ea|]. split; [exact Eg|]. split; [exact E|].
  rewrite (invoke_graph rt st0 w a ta g tg Ea Eg), E. reflexivity.
Qed.

Lemma stages_search_amazon rt q w : stages (snd (search_amazon_products rt q w)) = [].
Proof.
  destruct (search_amazon_products_trace rt q w) as [->|[e ->]]; reflexivity.
Qed.

Lemma stages_search_google rt q w : stages (snd (search_google_shopping rt q w)) = [].
Proof.
  destruct (search_google_shopping_trace rt q w) as [->|[e ->]]; reflexivity.
Qed.

Lemma calls_search_amazon rt q w :
  network_calls (snd (search_amazon_products rt q w)) = [EvHttpGet (amazon_request w q)].
Proof.
  destruct (search_amazon_products_trace rt q w) as [->|[e ->]]; reflexivity.
Qed.

Lemma calls_search_google rt q w :
  network_calls (snd (search_google_shopping rt q w)) = [EvHttpGet (google_request w q)].
Proof.
  destruct (search_google_shopping_trace rt q w) as [->|[e ->]]; reflexivity.
Qed.

(** C6: one run of the graph starts the four nodes in the order extract,
    search-A, search-B, rank, each once; the final state holds in
    [amazon_products] the list search-A returned, in [google_products] the
    list search-B returned, and in [ranked_products] and [output_summary]
    the two outputs of rank, so no later stage overwrote them; and each
    node returns only its own keys. *)
Theorem pipeline_stage_order rt st0 w :
  exists a ta g tg ranked summary events,
    search_amazon_products rt (user_input st0) w = (Ok a, ta) /\
    search_google_shopping rt (user_input st0) w = (Ok g, tg) /\
    rank_products rt (mkState (user_input st0) (Some a) (Some g)
                              (ranked_products st0) (output_summary st0))
    = Ok [W_ranked_products ranked; W_output_summary summary] /\
    invoke (graph rt) st0 w
    = (Ok (mkState (user_input st0) (Some a) (Some g) (Some ranked) (Some summary)),
       events) /\
    events = ([EvNode "extract_product"; EvNode "search_amazon"] ++ ta
              ++ [EvNode "search_google"] ++ tg ++ [EvNode "rank_products"])%list /\
    stages events
    = ["extract_product"; "search_amazon"; "search_google"; "rank_products"] /\
    (forall st w', exists u t,
        extract_product st w' = (Ok u, t) /\ written_fields u = [F_user_input]) /\
    (forall st w', exists u t,
        search_amazon rt st w' = (Ok u, t) /\ written_fields u = [F_amazon_products]) /\
    (forall st w', exists u t,
        search_google rt st w' = (Ok u, t) /\ written_fields u = [F_google_products]) /\
    (forall st w' u t,
        rank_products_node rt st w' = (Ok u, t) ->
        written_fields u = [F_ranked_products; F_output_summary]).
Proof.
  destruct (invoke_pipeline rt st0 w)
    as (a & ta & g & tg & ranked & summary & Ea & Eg & Er & Ei).
  exists a, ta, g, tg, ranked, summary. eexists.
  split; [exact Ea|]. split; [exact Eg|]. split; [exact Er|].
  split; [exact Ei|]. split; [reflexivity|]. split.
  - pose proof (stages_search_amazon rt (user_input st0) w) as Sa.
    pose proof (stages_search_google rt (user_input st0) w) as Sg.
    rewrite Ea in Sa. rewrite Eg in Sg. simpl in Sa, Sg.
    cbn [app stages is_node_event]. rewrite stages_app, Sa.
    cbn [app stages is_node_event]. rewrite stages_app, Sg. reflexivity.
  - split; [|split; [|split]].
    + intros st w'. do 2 eexists. split; reflexivity.
    + intros st w'.
      destruct (search_amazon_products_complete rt (user_input st) w')
        as (ps & t & E & _).
      unfold search_amazon, bind. rewrite E. do 2 eexists. split; reflexivity.
    + intros st w'.
      destruct (search_google_shopping_complete rt (user_input st) w')
        as (ps & t & E & _).
      unfold search_google, bind. rewrite E. do 2 eexists. split; reflexivity.
    + intros st w' u t. unfold rank_products_node, lift. intros [= E _].
      now apply rank_products_writes in E.
Qed.

Lemma pipeline_stage_order_witness :
  exists u t,
    rank_products_node sample_runtime sample_state world_scenario = (Ok u, t) /\
    written_fields u = [F_ranked_products; F_output_summary].
Proof.
  destruct (pipeline_stage_order sample_runtime sample_state world_scenario)
    as (a & ta & g & tg & ranked & summary & events & H).
  repeat (destruct H as [_ H]).
  destruct (rank_products_node sample_runtime sample_state world_scenario)
    as [[u|e] t] eqn:E.
  - exists u, t. split; [reflexivity|]. exact (H _ _ _ _ E).
  - vm_compute in E. discriminate.
Defined.

(** ** The summary *)

Lemma item_lines_nth rt suffix i ps lines :
  item_lines rt suffix i ps lines ->
  forall k p, nth_error ps k = Some p ->
    exists t pr r l,
      title p = Some t /\ price p = Some pr /\ rating p = Some r /\
      link p = Some l /\
      nth_error lines k = Some (item_text rt suffix (i + k) t pr r l).
Proof.
  induction 1 as [i|i t pr r l ps lines _ IH]; intros k p Hk.
  - destruct k; discriminate.
  - destruct k as [|k]; simpl in Hk.
    + injection Hk as <-. exists t, pr, r, l. rewrite Nat.add_0_r.
      repeat split; reflexivity.
    + destruct (IH k p Hk) as (t' & pr' & r' & l' & Ht & Hp & Hr & Hl & E).
      exists t', pr', r', l'. rewrite <- Nat.add_succ_comm.
      repeat split; assumption.
Qed.

(** C5: on complete product dicts (an absent list counting as empty) the
    summary is the newline-joined sequence of: the line echoing the query
    after its label, an empty line, the Amazon header, one line per amazon
    product, the Google header, one line per google product, the top-3
    header, one line per ranked product.  The line of the product at
    (0-based) place [k] of its list reads: the number [k + 1], a dot, the
    title, the price and the rating separated by dashes, a star and the
    provider tag (none in the top-3 section), then on a second line the
    link after its label.  A field holding a string is shown as that
    string, a null field as [None], a number by its decimal text.  Each
    section has as many item lines as its list has products, so an empty
    list leaves its header with no item line. *)
Theorem output_summary_layout rt st :
  complete (all_products st) ->
  let amazon := match amazon_products st with Some ps => ps | None => [] end in
  let google := match google_products st with Some ps => ps | None => [] end in
  let newline := String "010"%char EmptyString in
  let shown := fun (tag : string) (k : nat) (p : product) (line : string) =>
    exists t pr r l,
      title p = Some t /\ price p = Some pr /\ rating p = Some r /\
      link p = Some l /\
      line = NilZero.string_of_uint (Nat.to_uint (S k)) ++ ". "
             ++ py_str rt t ++ " - " ++ py_str rt pr ++ " - " ++ repr_float rt r
             ++ " ⭐" ++ tag ++ newline ++ "   Link: " ++ py_str rt l in
  let listing := fun (tag : string) (ps : list product) (lines : list string) =>
    List.length lines = List.length ps /\
    forall k p, nth_error ps k = Some p ->
      exists line, nth_error lines k = Some line /\ shown tag k p line in
  exists ranked la lg lr,
    rank_products rt st
    = Ok [ W_ranked_products ranked;
           W_output_summary
             (String.concat newline
                ([("🔍 **Extracted product name:** " ++ user_input st)%string; "";
                  "--- 🛒 **Amazon Products** ---"] ++ la
                 ++ ["--- 🛒 **Google Products** ---"] ++ lg
                 ++ ["=== 🏆 **Top 3 Products Overall** ==="] ++ lr)%list) ] /\
    listing " [Amazon]" amazon la /\
    listing " [Google]" google lg /\
    listing "" ranked lr /\
    (forall s, py_str rt (PStr s) = s) /\
    py_str rt PNone = "None" /\
    py_str rt (PBool true) = "True" /\
    py_str rt (PBool false) = "False" /\
    (forall z, py_str rt (PInt z) = NilZero.string_of_int (Z.to_int z)) /\
    (forall f, py_str rt (PFloat f) = repr_float rt f).
Proof.
  intros Hc amazon google newline shown listing.
  destruct (rank_products_ok rt st Hc) as (la & lg & lr & Ha & Hg & Hr & E).
  assert (L : forall tag ps lines,
             item_lines rt tag 1 ps lines -> listing tag ps lines).
  { intros tag ps lines H. split; [now apply item_lines_length in H|].
    intros k p Hk.
    destruct (item_lines_nth _ _ _ _ _ H k p Hk)
      as (t & pr & r & l & Ht & Hp & Hr' & Hl & El).
    eexists. split; [exact El|]. exists t, pr, r, l.
    repeat split; assumption. }
  eexists. exists la, lg, lr.
  split; [exact E|].
  split; [exact (L _ _ _ Ha)|]. split; [exact (L _ _ _ Hg)|].
  split; [exact (L _ _ _ Hr)|]. repeat split.
Qed.

Lemma output_summary_layout_witness :
  exists la lg lr,
    rank_products sample_runtime sample_state
    = Ok [ W_ranked_products [sample_a; sample_b'; sample_b];
           W_output_summary
             (String.concat (String "010"%char EmptyString)
                (["🔍 **Extracted product name:** iPhone 14"; "";
                  "--- 🛒 **Amazon Products** ---"] ++ la
                 ++ ["--- 🛒 **Google Products** ---"] ++ lg
                 ++ ["=== 🏆 **Top 3 Products Overall** ==="] ++ lr)%list) ] /\
    List.length la = 1 /\ List.length lg = 2 /\ List.length lr = 3.
Proof.
  assert (Hc : complete (all_products sample_state))
    by (unfold complete, all_products; simpl; repeat constructor).
  destruct (output_summary_layout sample_runtime sample_state Hc)
    as (ranked & la & lg & lr & E & [La _] & [Lg _] & [Lr _] & _).
  assert (Er : ranked = [sample_a; sample_b'; sample_b]).
  { destruct (rank_products_sample) as [s Es]. rewrite Es in E.
    injection E as E _. now symmetry. }
  subst ranked.
  exists la, lg, lr. split; [exact E|]. simpl in La, Lg, Lr. auto.
Defined.

(** With no list at all the three headers are still rendered. *)
Example rank_products_no_lists :
  rank_products sample_runtime (mkState "tv" None None None None)
  = Ok [ W_ranked_products [];
         W_output_summary
           (String.concat (String "010"%char EmptyString)
              ["🔍 **Extracted product name:** tv"; "";
               "--- 🛒 **Amazon Products** ---";
               "--- 🛒 **Google Products** ---";
               "=== 🏆 **Top 3 Products Overall** ==="]) ].
Proof. reflexivity. Qed.

(** C7: the rank stage is a function of the query and the two provider
    lists alone: two states that agree on them (whatever else they hold)
    give the same ranked products and the same summary, and the node reads
    nothing from the world and logs no effect. *)
Theorem rank_products_deterministic rt st1 st2 :
  user_input st1 = user_input st2 ->
  or_empty (amazon_products st1) = or_empty (amazon_products st2) ->
  or_empty (google_products st1) = or_empty (google_products st2) ->
  rank_products rt st1 = rank_products rt st2 /\
  forall w1 w2,
    rank_products_node rt st1 w1 = rank_products_node rt st2 w2 /\
    snd (rank_products_node rt st1 w1) = [].
Proof.
  intros Hq Ha Hg.
  assert (E : rank_products rt st1 = rank_products rt st2)
    by (unfold rank_products; now rewrite Hq, Ha, Hg).
  split; [exact E|].
  intros w1 w2. unfold rank_products_node, lift. now rewrite E.
Qed.

Lemma rank_products_deterministic_witness :
  rank_products sample_runtime sample_state
  = rank_products sample_runtime sample_state_rerun /\
  forall w1 w2,
    rank_products_node sample_runtime sample_state w1
    = rank_products_node sample_runtime sample_state_rerun w2 /\
    snd (rank_products_node sample_runtime sample_state w1) = [].
Proof.
  apply (rank_products_deterministic sample_runtime sample_state sample_state_rerun);
    reflexivity.
Defined.

(** ** The user interface and the extract stage *)

(** C8: pressing the button with an empty query shows the warning and
    nothing else happens: no node runs and no request is sent; with a
    non-empty query the graph is invoked on that query, both providers are
    called once, and the returned summary is displayed. *)
Theorem run_product_search_gate rt w :
  run_product_search rt "" true w
  = (Ok tt, (page_header ++ [EvWarning "Please enter a product query."])%list) /\
  network_calls (snd (run_product_search rt "" true w)) = [] /\
  stages (snd (run_product_search rt "" true w)) = [] /\
  forall q, q <> "" ->
    exists st t summary,
      invoke (graph rt) (mkState q None None None None) w = (Ok st, t) /\
      output_summary st = Some summary /\
      network_calls t
      = [EvHttpGet (amazon_request w q); EvHttpGet (google_request w q)] /\
      run_product_search rt q true w
      = (Ok tt,
         (page_header ++ t
          ++ [EvSubheader "Comparison Summary"; EvMarkdown summary])%list).
Proof.
  split; [reflexivity|]. split; [reflexivity|]. split; [reflexivity|].
  intros q Hq.
  destruct (invoke_pipeline rt (mkState q None None None None) w)
    as (a & ta & g & tg & ranked & summary & Ea & Eg & _ & Ei).
  cbn [user_input] in *.
  do 2 eexists. exists summary.
  split; [exact Ei|]. split; [reflexivity|]. split.
  - pose proof (calls_search_amazon rt q w) as Ca.
    pose proof (calls_search_google rt q w) as Cg.
    rewrite Ea in Ca. rewrite Eg in Cg. simpl in Ca, Cg.
    cbn [app network_calls filter is_http_event].
    change (filter is_http_event) with network_calls.
    rewrite network_calls_app, Ca.
    cbn [app network_calls filter is_http_event].
    change (filter is_http_event) with network_calls.
    rewrite network_calls_app, Cg. reflexivity.
  - unfold run_product_search.
    assert (Ht : py_truthy (PStr q) = true).
    { simpl. destruct (String.eqb_spec q ""); [contradiction|reflexivity]. }
    rewrite Ht. unfold bind, emit, lift. rewrite Ei.
    cbn [output_summary getitem app page_header]. rewrite <- !app_assoc.
    reflexivity.
Qed.

Lemma run_product_search_gate_witness :
  exists st t summary,
    invoke (graph sample_runtime) (mkState "iPhone 14" None None None None)
           world_scenario = (Ok st, t) /\
    output_summary st = Some summary /\
    network_calls t
    = [EvHttpGet (amazon_request world_scenario "iPhone 14");
       EvHttpGet (google_request world_scenario "iPhone 14")] /\
    run_product_search sample_runtime "iPhone 14" true world_scenario
    = (Ok tt,
       (page_header ++ t
        ++ [EvSubheader "Comparison Summary"; EvMarkdown summary])%list).
Proof.
  destruct (run_product_search_gate sample_runtime world_scenario)
    as (_ & _ & _ & H).
  apply H. discriminate.
Defined.

(** The end-to-end scenario of the spec: A returns one item rated 4.5, B
    one item rated 4.0; they are ranked in that order. *)
Example invoke_scenario :
  exists summary t,
    invoke (graph sample_runtime) (mkState "iPhone 14" None None None None)
           world_scenario
    = (Ok (mkState "iPhone 14" (Some [sample_a]) (Some [sample_b])
                   (Some [sample_a; sample_b]) (Some summary)), t).
Proof. do 2 eexists. vm_compute. reflexivity. Qed.

(** Without a click nothing is searched either. *)
Example run_product_search_idle rt q w :
  run_product_search rt q false w = (Ok tt, page_header).
Proof. reflexivity. Qed.

(** C9: the extract stage returns the query it was given under the key
    [user_input] and no other key, without any effect; merging its result
    leaves the state as it was, and the graph hands that same state to
    the search-A node. *)
Theorem extract_product_identity rt st w :
  extract_product st w = (Ok [W_user_input (user_input st)], []) /\
  written_fields [W_user_input (user_input st)] = [F_user_input] /\
  apply_update st [W_user_input (user_input st)] = st /\
  forall fuel,
    run_from (S fuel) (graph rt) "extract_product" st w
    = (fst (run_from fuel (graph rt) "search_amazon" st w),
       EvNode "extract_product"
       :: snd (run_from fuel (graph rt) "search_amazon" st w)).
Proof.
  split; [reflexivity|]. split; [reflexivity|]. split.
  - destruct st. reflexivity.
  - intros fuel.
    rewrite (run_from_step _ _ _ _ extract_product) by reflexivity.
    change (assoc "extract_product" (edges (graph rt))) with (Some "search_amazon").
    unfold bind at 1 2. unfold emit at 1. unfold extract_product at 1, ret at 1.
    replace (apply_update st [W_user_input (user_input st)]) with st
      by (destruct st; reflexivity).
    cbn [app]. destruct (run_from fuel (graph rt) "search_amazon" st w) as [r t].
    reflexivity.
Qed.

(** * Further properties of the code *)

(** ** The rank stage: missing keys, empty input, the products left out *)

Lemma item_line_incomplete rt suffix i p :
  has_all_keys p = false -> item_line rt suffix i p = Raise KeyError.
Proof.
  destruct p as [[t|] [pr|] [r|] [l|]]; try discriminate; reflexivity.
Qed.

Lemma append_items_incomplete rt suffix ps :
  forallb has_all_keys ps = false ->
  forall i acc, append_items rt suffix i ps acc = Raise KeyError.
Proof.
  induction ps as [|p ps IH]; simpl; [discriminate|].
  intros H i acc. destruct (has_all_keys p) eqn:Hp; simpl in H.
  - apply has_all_keys_inv in Hp. destruct Hp as (t & pr & r & l & ->).
    simpl. now apply IH.
  - now rewrite item_line_incomplete.
Qed.

Lemma complete_forallb ps : complete ps <-> forallb has_all_keys ps = true.
Proof.
  unfold complete. rewrite forallb_forall, Forall_forall. reflexivity.
Qed.

(** X1: on product dicts whose rating, where present, is a float (what
    both clients store), the rank stage returns exactly when every
    product of the two lists has the four keys title, price, rating and
    link; as soon as one product lacks a key it raises KeyError and
    produces neither a ranked list nor a summary (the default of
    [x.get("rating", 0.0)] never shows in a result). *)
Theorem rank_products_returns_iff rt st :
  ((exists u, rank_products rt st = Ok u) <-> complete (all_products st)) /\
  (~ complete (all_products st) -> rank_products rt st = Raise KeyError).
Proof.
  assert (Hbad : forallb has_all_keys (all_products st) = false ->
                 rank_products rt st = Raise KeyError).
  { unfold all_products. rewrite forallb_app. intros H.
    unfold rank_products.
    destruct (forallb has_all_keys (or_empty (amazon_products st))) eqn:Ha.
    - simpl in H. apply complete_forallb in Ha.
      destruct (append_items_lines rt " [Amazon]" _ Ha 1) as (la & _ & ->).
      cbn [res_bind]. now rewrite append_items_incomplete.
    - now rewrite append_items_incomplete. }
  split; [split|].
  - intros [u Hu].
    destruct (forallb has_all_keys (all_products st)) eqn:E.
    + now apply complete_forallb.
    + rewrite (Hbad eq_refl) in Hu. discriminate.
  - intros Hc. destruct (rank_products_ok rt st Hc) as (la & lg & lr & _ & _ & _ & E).
    eexists. exact E.
  - intros Hn. apply Hbad.
    destruct (forallb has_all_keys (all_products st)) eqn:E; [|reflexivity].
    exfalso. now apply Hn, complete_forallb.
Qed.

Lemma rank_products_returns_iff_witness :
  rank_products sample_runtime
    (mkState "tv" (Some [sample_a]) (Some [mkProduct (Some (PStr "B")) None (Some 4%float) (Some PNone)])
             None None)
  = Raise KeyError.
Proof.
  apply (rank_products_returns_iff sample_runtime).
  unfold complete, all_products. simpl. intros H.
  inversion H as [|? ? _ H']. inversion H' as [|? ? Hk _]. discriminate.
Defined.

(** X2: when no rating is NaN, the ranked products are listed by
    descending rating and no product left out of the ranking is rated
    higher than a ranked one; ranked and left-out products together are
    exactly the concatenation, and nothing is left out when there are at
    most three products. *)
Theorem rank_products_dominates rt st :
  complete (all_products st) ->
  nan_free (all_products st) ->
  exists ranked summary rest,
    rank_products rt st
    = Ok [W_ranked_products ranked; W_output_summary summary] /\
    Permutation (ranked ++ rest) (all_products st) /\
    descending rating_key ranked /\
    (forall p q, In p ranked -> In q rest ->
       float_ge (rating_key p) (rating_key q) = true) /\
    (List.length (all_products st) <= 3 -> rest = []).
Proof.
  intros Hc Hn.
  destruct (rank_products_ok rt st Hc) as (la & lg & lr & _ & _ & _ & E).
  eexists. eexists.
  exists (skipn 3 (sorted_reverse rating_key (all_products st))).
  split; [exact E|].
  pose proof (sorted_reverse_descending rating_key _ Hn) as Hd.
  rewrite <- (firstn_skipn 3 (sorted_reverse rating_key (all_products st))) in Hd.
  apply StronglySorted_app_inv in Hd. destruct Hd as (H1 & _ & H3).
  split; [|split; [exact H1|split; [exact H3|]]].
  - rewrite firstn_skipn. apply sorted_reverse_perm.
  - intros Hlen. apply skipn_all2. now rewrite sorted_reverse_length.
Qed.

Lemma rank_products_dominates_witness :
  exists ranked summary rest,
    rank_products sample_runtime sample_state
    = Ok [W_ranked_products ranked; W_output_summary summary] /\
    Permutation (ranked ++ rest) (all_products sample_state) /\
    descending rating_key ranked /\
    (forall p q, In p ranked -> In q rest ->
       float_ge (rating_key p) (rating_key q) = true) /\
    (List.length (all_products sample_state) <= 3 -> rest = []).
Proof.
  apply (rank_products_dominates sample_runtime sample_state).
  - unfold complete, all_products; simpl. repeat constructor.
  - unfold nan_free, keys_not_nan, all_products; simpl. repeat constructor.
Defined.


(** ** Ranking and the order of the providers *)

Lemma descending_perm_unique {A : Type} (key : A -> float) (l1 : list A) :
  forall l2,
    Permutation l1 l2 ->
    descending key l1 -> descending key l2 ->
    (forall a b, In a l1 -> In b l1 ->
       PrimFloat.eqb (key a) (key b) = true -> a = b) ->
    l1 = l2.
Proof.
  induction l1 as [|x l1 IH]; intros l2 HP D1 D2 Hinj.
  - apply Permutation_nil in HP. now subst.
  - destruct l2 as [|y l2].
    { apply Permutation_sym, Permutation_nil in HP. discriminate. }
    inversion D1 as [|? ? D1' A1]; subst. inversion D2 as [|? ? D2' A2]; subst.
    rewrite Forall_forall in A1, A2.
    assert (Hx : In x (y :: l2)) by (apply (Permutation_in _ HP); now left).
    assert (Hy : In y (x :: l1))
      by (apply (Permutation_in _ (Permutation_sym HP)); now left).
    assert (Exy : x = y).
    { destruct Hx as [Hx|Hx]; [now symmetry|].
      destruct Hy as [Hy|Hy]; [assumption|].
      apply Hinj; [now left|now right|].
      pose proof (A1 y Hy) as G1. pose proof (A2 x Hx) as G2.
      unfold float_ge in G1, G2.
      rewrite FloatOrder.eqb_sym. now apply FloatOrder.leb_antisym. }
    subst y. f_equal. apply IH; auto.
    + now apply Permutation_cons_inv in HP.
    + intros a b Ha Hb. apply Hinj; now right.
Qed.

(** X3: which provider's list comes first only matters for ties.  If no
    rating is NaN and no two different products have equal ratings, then
    swapping the two provider lists in the state leaves the ranked list
    unchanged. *)
Theorem rank_products_provider_order rt q a g r s r' s' :
  complete (a ++ g) ->
  nan_free (a ++ g) ->
  (forall p p', In p (a ++ g) -> In p' (a ++ g) ->
     PrimFloat.eqb (rating_key p) (rating_key p') = true -> p = p') ->
  exists ranked s1 s2,
    rank_products rt (mkState q (Some a) (Some g) r s)
    = Ok [W_ranked_products ranked; W_output_summary s1] /\
    rank_products rt (mkState q (Some g) (Some a) r' s')
    = Ok [W_ranked_products ranked; W_output_summary s2].
Proof.
  intros Hc Hn Hinj.
  assert (HP : Permutation (a ++ g) (g ++ a)) by apply Permutation_app_comm.
  assert (Hc' : complete (g ++ a)).
  { apply complete_app in Hc. apply complete_app. tauto. }
  assert (Hn' : nan_free (g ++ a))
    by (apply (keys_not_nan_perm rating_key _ _ HP Hn)).
  destruct (rank_products_ok rt (mkState q (Some a) (Some g) r s) Hc)
    as (la & lg & lr & _ & _ & _ & E1).
  destruct (rank_products_ok rt (mkState q (Some g) (Some a) r' s') Hc')
    as (la' & lg' & lr' & _ & _ & _ & E2).
  unfold all_products in E1, E2. cbn [amazon_products google_products or_empty] in E1, E2.
  assert (Es : sorted_reverse rating_key (a ++ g)%list
               = sorted_reverse rating_key (g ++ a)%list).
  { apply (descending_perm_unique rating_key).
    - apply perm_trans with (a ++ g)%list; [apply sorted_reverse_perm|].
      apply perm_trans with (g ++ a)%list; [exact HP|].
      apply Permutation_sym, sorted_reverse_perm.
    - now apply sorted_reverse_descending.
    - now apply sorted_reverse_descending.
    - intros p p' Hp Hp'. apply Hinj; now apply (sorted_reverse_In rating_key). }
  rewrite <- Es in E2.
  do 3 eexists. split; [exact E1|exact E2].
Qed.

Lemma rank_products_provider_order_witness :
  exists ranked s1 s2,
    rank_products sample_runtime (mkState "tv" (Some [sample_a]) (Some [sample_b]) None None)
    = Ok [W_ranked_products ranked; W_output_summary s1] /\
    rank_products sample_runtime (mkState "tv" (Some [sample_b]) (Some [sample_a]) None None)
    = Ok [W_ranked_products ranked; W_output_summary s2].
Proof.
  apply (rank_products_provider_order sample_runtime "tv" [sample_a] [sample_b]).
  - repeat constructor.
  - repeat constructor.
  - simpl. intros p p' [<-|[<-|[]]] [<-|[<-|[]]] H;
      try reflexivity; vm_compute in H; discriminate.
Defined.

(** ** The provider clients: isolation, diagnostics, malformed responses *)

Lemma search_amazon_products_frame rt q w1 w2 :
  requests_get w1 (amazon_request w1 q) = requests_get w2 (amazon_request w2 q) ->
  fst (search_amazon_products rt q w1) = fst (search_amazon_products rt q w2).
Proof.
  intros H.
  unfold search_amazon_products, try_except, bind, ask, http_get, lift, ret, emit.
  rewrite H.
  destruct (requests_get w2 (amazon_request w2 q)) as [resp|e]; simpl;
    [destruct (Z.eqb (status_code resp) 200); simpl;
     [destruct (json resp) as [data|e]; simpl;
      [destruct (amazon_parse rt data) as [ps|e]; simpl|]|]|];
    reflexivity.
Qed.

Lemma search_google_shopping_frame rt q w1 w2 :
  requests_get w1 (google_request w1 q) = requests_get w2 (google_request w2 q) ->
  fst (search_google_shopping rt q w1) = fst (search_google_shopping rt q w2).
Proof.
  intros H.
  unfold search_google_shopping, try_except, bind, ask, http_get, lift, ret, emit.
  rewrite H.
  destruct (requests_get w2 (google_request w2 q)) as [resp|e]; simpl;
    [destruct (Z.eqb (status_code resp) 200); simpl;
     [destruct (json resp) as [data|e]; simpl;
      [destruct (google_parse rt data) as [ps|e]; simpl|]|]|];
    reflexivity.
Qed.

(** X4: the two providers do not influence each other.  In two runs of
    the graph on the same query, [amazon_products] is the same whenever
    provider A answers the same, whatever provider B does (answer, fail,
    time out), and likewise [google_products] depends on provider B's
    answer alone. *)
Theorem pipeline_provider_isolation rt q w1 w2 :
  exists st1 t1 st2 t2,
    invoke (graph rt) (mkState q None None None None) w1 = (Ok st1, t1) /\
    invoke (graph rt) (mkState q None None None None) w2 = (Ok st2, t2) /\
    (requests_get w1 (amazon_request w1 q) = requests_get w2 (amazon_request w2 q) ->
     amazon_products st1 = amazon_products st2) /\
    (requests_get w1 (google_request w1 q) = requests_get w2 (google_request w2 q) ->
     google_products st1 = google_products st2).
Proof.
  destruct (invoke_pipeline rt (mkState q None None None None) w1)
    as (a1 & ta1 & g1 & tg1 & r1 & s1 & Ea1 & Eg1 & _ & Ei1).
  destruct (invoke_pipeline rt (mkState q None None None None) w2)
    as (a2 & ta2 & g2 & tg2 & r2 & s2 & Ea2 & Eg2 & _ & Ei2).
  cbn [user_input] in *.
  do 4 eexists. split; [exact Ei1|]. split; [exact Ei2|].
  cbn [amazon_products google_products]. split; intros H.
  - apply (search_amazon_products_frame rt) in H.
    rewrite Ea1, Ea2 in H. simpl in H. congruence.
  - apply (search_google_shopping_frame rt) in H.
    rewrite Eg1, Eg2 in H. simpl in H. congruence.
Qed.

(** Provider A answers the same in [world_scenario] and in this world,
    where provider B times out. *)
Lemma pipeline_provider_isolation_witness :
  exists st1 t1 st2 t2,
    invoke (graph sample_runtime) (mkState "iPhone 14" None None None None)
           world_scenario = (Ok st1, t1) /\
    invoke (graph sample_runtime) (mkState "iPhone 14" None None None None)
           world_scenario_b_down = (Ok st2, t2) /\
    amazon_products st1 = amazon_products st2 /\
    amazon_products st1 = Some [sample_a] /\
    google_products st2 = Some fallback_google.
Proof.
  destruct (pipeline_provider_isolation sample_runtime "iPhone 14"
              world_scenario world_scenario_b_down)
    as (st1 & t1 & st2 & t2 & E1 & E2 & HA & _).
  exists st1, t1, st2, t2.
  split; [exact E1|]. split; [exact E2|]. split; [apply HA; reflexivity|].
  vm_compute in E1, E2.
  injection E1 as <- _. injection E2 as <- _. split; reflexivity.
Defined.

Lemma search_amazon_products_log rt q w :
  (exists e, In (EvPrint "[Amazon Error] " e)
                (snd (search_amazon_products rt q w))) <->
  client_raised (requests_get w (amazon_request w q)) (amazon_parse rt).
Proof.
  unfold client_raised, search_amazon_products, try_except, bind, ask,
    http_get, lift, ret, emit.
  destruct (requests_get w (amazon_request w q)) as [resp|e]; simpl.
  - destruct (Z.eqb (status_code resp) 200); simpl.
    + destruct (json resp) as [data|e]; simpl.
      * destruct (amazon_parse rt data) as [ps|e]; simpl.
        -- split; [intros [e [H|[]]]; discriminate|intros []].
        -- split; [intros _; exact I|intros _; exists e; right; now left].
      * split; [intros _; exact I|intros _; exists e; right; now left].
    + split; [intros [e [H|[]]]; discriminate|intros []].
  - split; [intros _; exact I|intros _; exists e; right; now left].
Qed.

Lemma search_google_shopping_log rt q w :
  (exists e, In (EvPrint "[Google Shopping Error] " e)
                (snd (search_google_shopping rt q w))) <->
  client_raised (requests_get w (google_request w q)) (google_parse rt).
Proof.
  unfold client_raised, search_google_shopping, try_except, bind, ask,
    http_get, lift, ret, emit.
  destruct (requests_get w (google_request w q)) as [resp|e]; simpl.
  - destruct (Z.eqb (status_code resp) 200); simpl.
    + destruct (json resp) as [data|e]; simpl.
      * destruct (google_parse rt data) as [ps|e]; simpl.
        -- split; [intros [e [H|[]]]; discriminate|intros []].
        -- split; [intros _; exact I|intros _; exists e; right; now left].
      * split; [intros _; exact I|intros _; exists e; right; now left].
    + split; [intros [e [H|[]]]; discriminate|intros []].
  - split; [intros _; exact I|intros _; exists e; right; now left].
Qed.

(** X5: a provider client prints its diagnostic line exactly when an
    exception was caught: the request raised, or the provider answered 200
    and decoding the body or converting an entry raised.  A non-200 status
    and a 200 answer without any entry fall back to the fallback list
    without printing anything. *)
Theorem provider_diagnostics rt q w :
  ((exists e, In (EvPrint "[Amazon Error] " e)
                 (snd (search_amazon_products rt q w))) <->
   client_raised (requests_get w (amazon_request w q)) (amazon_parse rt)) /\
  ((exists e, In (EvPrint "[Google Shopping Error] " e)
                 (snd (search_google_shopping rt q w))) <->
   client_raised (requests_get w (google_request w q)) (google_parse rt)) /\
  (forall resp,
     requests_get w (amazon_request w q) = Ok resp -> status_code resp <> 200%Z ->
     search_amazon_products rt q w
     = (Ok fallback_amazon, [EvHttpGet (amazon_request w q)])) /\
  (forall resp,
     requests_get w (google_request w q) = Ok resp -> status_code resp <> 200%Z ->
     search_google_shopping rt q w
     = (Ok fallback_google, [EvHttpGet (google_request w q)])).
Proof.
  split; [apply search_amazon_products_log|].
  split; [apply search_google_shopping_log|].
  split; intros resp H Hs; apply Z.eqb_neq in Hs.
  - unfold search_amazon_products, try_except, bind, ask, http_get, lift, ret, emit.
    rewrite H, Hs. reflexivity.
  - unfold search_google_shopping, try_except, bind, ask, http_get, lift, ret, emit.
    rewrite H. simpl. rewrite Hs. reflexivity.
Qed.

Lemma provider_diagnostics_witness :
  search_amazon_products sample_runtime "tv" world_500_null
  = (Ok fallback_amazon, [EvHttpGet (amazon_request world_500_null "tv")]) /\
  exists e, In (EvPrint "[Google Shopping Error] " e)
               (snd (search_google_shopping sample_runtime "tv" world_500_null)).
Proof.
  destruct (provider_diagnostics sample_runtime "tv" world_500_null)
    as (_ & HG & HA & _).
  split.
  - apply (HA (mkResponse 500 (Raise JSONDecodeError))); [reflexivity|discriminate].
  - apply HG. vm_compute. exact I.
Defined.

(** X6: parsing a 200 answer is all or nothing, and looks at the first
    five entries only.  If one of the first five entries cannot be
    converted, the client drops the entries it had already converted,
    prints its diagnostic and returns the fallback list; if all of the
    first five can, it returns their records in order, whatever follows
    the fifth entry. *)
Theorem provider_all_or_nothing rt q w resp kvs entries :
  status_code resp = 200%Z ->
  json resp = Ok (PDict kvs) ->
  (requests_get w (google_request w q) = Ok resp ->
   assoc "shopping_results" kvs = Some (PList entries) ->
   (forall bad e, In bad (firstn 5 entries) -> google_record rt bad = Raise e ->
      exists e', search_google_shopping rt q w
                 = (Ok fallback_google,
                    [EvHttpGet (google_request w q);
                     EvPrint "[Google Shopping Error] " e'])) /\
   (entries <> [] ->
    Forall (fun x => exists p, google_record rt x = Ok p) (firstn 5 entries) ->
    exists ps, search_google_shopping rt q w
               = (Ok ps, [EvHttpGet (google_request w q)]) /\
               res_map (google_record rt) (firstn 5 entries) = Ok ps /\
               List.length ps = Nat.min 5 (List.length entries))) /\
  (requests_get w (amazon_request w q) = Ok resp ->
   forall kvs',
   assoc "data" kvs = Some (PDict kvs') ->
   assoc "products" kvs' = Some (PList entries) ->
   (forall bad e, In bad (firstn 5 entries) -> amazon_record rt bad = Raise e ->
      exists e', search_amazon_products rt q w
                 = (Ok fallback_amazon,
                    [EvHttpGet (amazon_request w q);
                     EvPrint "[Amazon Error] " e'])) /\
   (entries <> [] ->
    Forall (fun x => exists p, amazon_record rt x = Ok p) (firstn 5 entries) ->
    exists ps, search_amazon_products rt q w
               = (Ok ps, [EvHttpGet (amazon_request w q)]) /\
               res_map (amazon_record rt) (firstn 5 entries) = Ok ps /\
               List.length ps = Nat.min 5 (List.length entries))).
Proof.
  intros Hs Hj. split.
  - intros Hr Hk.
    rewrite (search_google_shopping_200 rt q w resp _ Hr Hs Hj),
      (google_parse_entries rt kvs entries Hk).
    split.
    + intros bad e Hin Hbad.
      destruct (res_map_raise _ _ _ _ Hin Hbad) as [e' ->]. now exists e'.
    + intros Hne Hall.
      destruct (res_map_total (google_record rt) _ _ (fun x H => H) Hall)
        as (ps & -> & Hlen).
      exists ps. rewrite length_firstn in Hlen.
      destruct ps as [|p ps]; [|now repeat split].
      destruct entries; [contradiction|discriminate].
  - intros Hr kvs' Hk Hk'.
    rewrite (search_amazon_products_200 rt q w resp _ Hr Hs Hj),
      (amazon_parse_entries rt kvs kvs' entries Hk Hk').
    split.
    + intros bad e Hin Hbad.
      destruct (res_map_raise _ _ _ _ Hin Hbad) as [e' ->]. now exists e'.
    + intros Hne Hall.
      destruct (res_map_total (amazon_record rt) _ _ (fun x H => H) Hall)
        as (ps & -> & Hlen).
      exists ps. rewrite length_firstn in Hlen.
      destruct ps as [|p ps]; [|now repeat split].
      destruct entries; [contradiction|discriminate].
Qed.

(** In [world_six] provider B lists five good entries and a sixth whose
    rating is null: the sixth is never looked at.  In [world_500_null]
    the second of two entries has a null rating: the first is dropped
    too. *)
Lemma provider_all_or_nothing_witness :
  (exists ps, search_google_shopping sample_runtime "tv" world_six
              = (Ok ps, [EvHttpGet (google_request world_six "tv")]) /\
              List.length ps = 5) /\
  (exists e, search_google_shopping sample_runtime "tv" world_500_null
             = (Ok fallback_google,
                [EvHttpGet (google_request world_500_null "tv");
                 EvPrint "[Google Shopping Error] " e])).
Proof.
  split.
  - destruct (provider_all_or_nothing sample_runtime "tv" world_six
                (mkResponse 200 (google_body six_entries))
                [("shopping_results", PList six_entries)] six_entries
                eq_refl eq_refl) as [HG _].
    destruct (HG eq_refl eq_refl) as [_ H].
    destruct H as (ps & E & _ & L).
    + discriminate.
    + repeat constructor; eexists; reflexivity.
    + exists ps. split; [exact E|exact L].
  - destruct (provider_all_or_nothing sample_runtime "tv" world_500_null
                (mkResponse 200
                   (google_body
                      [ PDict [("title", PStr "X"); ("rating", PFloat 4.5%float)];
                        PDict [("title", PStr "Y"); ("rating", PNone)] ]))
                [("shopping_results",
                  PList [ PDict [("title", PStr "X"); ("rating", PFloat 4.5%float)];
                          PDict [("title", PStr "Y"); ("rating", PNone)] ])]
                [ PDict [("title", PStr "X"); ("rating", PFloat 4.5%float)];
                  PDict [("title", PStr "Y"); ("rating", PNone)] ]
                eq_refl eq_refl) as [HG _].
    destruct (HG eq_refl eq_refl) as [H _].
    apply (H (PDict [("title", PStr "Y"); ("rating", PNone)]) TypeError).
    + right. now left.
    + reflexivity.
Defined.

(** X7: how a 200 answer with an unexpected body is handled.  A JSON
    object without the results key (for provider A: without "data", or
    without "products" inside it), or with an empty results list, gives
    the fallback list and no diagnostic; a body that is not a JSON object
    gives the fallback list with an AttributeError diagnostic, and a
    results value of null one with a TypeError diagnostic. *)
Theorem provider_unexpected_body rt q w resp data :
  status_code resp = 200%Z ->
  json resp = Ok data ->
  (requests_get w (google_request w q) = Ok resp ->
   (forall kvs, data = PDict kvs ->
      assoc "shopping_results" kvs = None \/
      assoc "shopping_results" kvs = Some (PList []) ->
      search_google_shopping rt q w
      = (Ok fallback_google, [EvHttpGet (google_request w q)])) /\
   ((forall kvs, data <> PDict kvs) ->
      search_google_shopping rt q w
      = (Ok fallback_google,
         [EvHttpGet (google_request w q);
          EvPrint "[Google Shopping Error] " AttributeError])) /\
   (forall kvs, data = PDict kvs ->
      assoc "shopping_results" kvs = Some PNone ->
      search_google_shopping rt q w
      = (Ok fallback_google,
         [EvHttpGet (google_request w q);
          EvPrint "[Google Shopping Error] " TypeError]))) /\
  (requests_get w (amazon_request w q) = Ok resp ->
   (forall kvs, data = PDict kvs ->
      assoc "data" kvs = None \/
      (exists kvs', assoc "data" kvs = Some (PDict kvs') /\
                    (assoc "products" kvs' = None \/
                     assoc "products" kvs' = Some (PList []))) ->
      search_amazon_products rt q w
      = (Ok fallback_amazon, [EvHttpGet (amazon_request w q)])) /\
   ((forall kvs, data <> PDict kvs) ->
      search_amazon_products rt q w
      = (Ok fallback_amazon,
         [EvHttpGet (amazon_request w q);
          EvPrint "[Amazon Error] " AttributeError])) /\
   (forall kvs, data = PDict kvs ->
      assoc "data" kvs = Some PNone ->
      search_amazon_products rt q w
      = (Ok fallback_amazon,
         [EvHttpGet (amazon_request w q);
          EvPrint "[Amazon Error] " AttributeError]))).
Proof.
  intros Hs Hj. split; intros Hr.
  - rewrite (search_google_shopping_200 rt q w resp data Hr Hs Hj).
    unfold google_parse, py_get, dict_get.
    split; [|split].
    + intros kvs -> [H|H]; simpl; rewrite H; reflexivity.
    + intros Hnd. destruct data; try reflexivity. now destruct (Hnd kvs).
    + intros kvs -> H. simpl. rewrite H. reflexivity.
  - rewrite (search_amazon_products_200 rt q w resp data Hr Hs Hj).
    unfold amazon_parse, py_get, dict_get.
    split; [|split].
    + intros kvs -> [H|(kvs' & H & [H'|H'])]; simpl; rewrite H; simpl;
        try rewrite H'; reflexivity.
    + intros Hnd. destruct data; try reflexivity. now destruct (Hnd kvs).
    + intros kvs -> H. simpl. rewrite H. reflexivity.
Qed.

Lemma provider_unexpected_body_witness :
  search_amazon_products sample_runtime "tv" world_odd_bodies
  = (Ok fallback_amazon, [EvHttpGet (amazon_request world_odd_bodies "tv")]) /\
  search_google_shopping sample_runtime "tv" world_odd_bodies
  = (Ok fallback_google,
     [EvHttpGet (google_request world_odd_bodies "tv");
      EvPrint "[Google Shopping Error] " AttributeError]).
Proof.
  split.
  - destruct (provider_unexpected_body sample_runtime "tv" world_odd_bodies
                (mkResponse 200 (Ok (PDict [("status", PStr "OK")])))
                (PDict [("status", PStr "OK")]) eq_refl eq_refl) as [_ HA].
    destruct (HA eq_refl) as [H _].
    apply (H [("status", PStr "OK")] eq_refl). left. reflexivity.
  - destruct (provider_unexpected_body sample_runtime "tv" world_odd_bodies
                (mkResponse 200 (Ok (PList [])))
                (PList []) eq_refl eq_refl) as [HG _].
    destruct (HG eq_refl) as (_ & H & _).
    apply H. discriminate.
Defined.

Lemma py_or_truthy a b : py_truthy b = true -> py_truthy (py_or a b) = true.
Proof.
  intros H. unfold py_or. destruct (py_truthy a) eqn:E; assumption.
Qed.

Lemma amazon_record_link rt p prod :
  amazon_record rt p = Ok prod -> has_link prod = true.
Proof.
  unfold amazon_record. destruct p; simpl; try discriminate.
  destruct (py_float rt _); simpl; [|discriminate].
  intros [= <-]. unfold has_link. simpl. now apply py_or_truthy.
Qed.

(** X8: whatever provider A answers, every product its client returns
    carries a link that is neither absent, nor null, nor empty: a missing
    or empty URL is replaced by "Link not available", and the fallback
    entries have their own links.  (Provider B's client gives no such
    guarantee: a missing link stays None.) *)
Theorem amazon_link_always_present rt q w :
  (exists ps t,
     search_amazon_products rt q w = (Ok ps, t) /\
     Forall (fun p => has_link p = true) ps) /\
  google_record rt (PDict []) = Ok (product_dict PNone (PStr "N/A") 0%float PNone) /\
  has_link (product_dict PNone (PStr "N/A") 0%float PNone) = false.
Proof.
  split; [|split; reflexivity].
  unfold search_amazon_products, try_except, bind, ask, http_get, lift, ret, emit.
  assert (Hf : Forall (fun p => has_link p = true) fallback_amazon)
    by (repeat constructor).
  destruct (requests_get w (amazon_request w q)) as [resp|e]; simpl;
    [destruct (Z.eqb (status_code resp) 200); simpl;
     [destruct (json resp) as [data|e]; simpl;
      [destruct (amazon_parse rt data) as [ps|e] eqn:Ep; simpl|]|]|];
    try (do 2 eexists; split; [reflexivity|exact Hf]).
  assert (Hps : Forall (fun p => has_link p = true) ps).
  { unfold amazon_parse in Ep.
    destruct (py_get data "data" (PDict [])) as [d|]; simpl in Ep; [|discriminate].
    destruct (py_get d "products" (PList [])) as [l|]; simpl in Ep; [|discriminate].
    destruct (py_slice5 l) as [items|]; simpl in Ep; [|discriminate].
    eapply res_map_Forall; [|exact Ep]. apply amazon_record_link. }
  destruct ps as [|p ps]; simpl;
    do 2 eexists; (split; [reflexivity|]); [exact Hf|exact Hps].
Qed.

(** ** The whole pipeline *)

Lemma provider_contract_bounds search req parse fallback w ps t :
  provider_contract search req parse fallback w ->
  search w = (Ok ps, t) ->
  1 <= List.length ps <= 5.
Proof.
  intros (ps' & t' & E & Hne & Hlen & _) E'.
  rewrite E in E'. injection E' as <- <-.
  destruct ps'; [contradiction|simpl in *; lia].
Qed.

(** The final state of a run, with what the rank stage put in it. *)
Lemma invoke_final rt st0 w :
  exists a g t,
    fst (search_amazon_products rt (user_input st0) w) = Ok a /\
    fst (search_google_shopping rt (user_input st0) w) = Ok g /\
    complete (a ++ g) /\
    exists summary,
      invoke (graph rt) st0 w
      = (Ok (mkState (user_input st0) (Some a) (Some g)
                     (Some (firstn 3 (sorted_reverse rating_key (a ++ g))))
                     (Some summary)), t).
Proof.
  destruct (invoke_pipeline rt st0 w)
    as (a & ta & g & tg & ranked & summary & Ea & Eg & Er & Ei).
  destruct (search_amazon_products_complete rt (user_input st0) w)
    as (a' & ta' & Ea' & Ha).
  destruct (search_google_shopping_complete rt (user_input st0) w)
    as (g' & tg' & Eg' & Hg).
  rewrite Ea in Ea'. injection Ea' as <- <-.
  rewrite Eg in Eg'. injection Eg' as <- <-.
  assert (Hc : complete (a ++ g)) by (apply complete_app; now split).
  destruct (rank_products_ok rt (mkState (user_input st0) (Some a) (Some g)
                                         (ranked_products st0) (output_summary st0)) Hc)
    as (la & lg & lr & _ & _ & _ & E).
  rewrite Er in E. injection E as -> _.
  exists a, g. eexists. rewrite Ea, Eg.
  split; [reflexivity|]. split; [reflexivity|]. split; [exact Hc|].
  exists summary. exact Ei.
Qed.

(** X9: every run of the graph, whatever the input state and whatever
    the two providers do, ends without an exception in a state where each
    provider list has between 1 and 5 products, the ranked list has 2 or
    3 products, all taken from the two provider lists, and a summary is
    present. *)
Theorem pipeline_always_ranks rt st0 w :
  exists a g ranked summary t,
    invoke (graph rt) st0 w
    = (Ok (mkState (user_input st0) (Some a) (Some g) (Some ranked) (Some summary)),
       t) /\
    1 <= List.length a <= 5 /\
    1 <= List.length g <= 5 /\
    2 <= List.length ranked <= 3 /\
    (forall p, In p ranked -> In p a \/ In p g).
Proof.
  destruct (invoke_final rt st0 w) as (a & g & t & Ea & Eg & _ & summary & Ei).
  exists a, g. do 2 eexists. exists t. split; [exact Ei|].
  assert (Ha : 1 <= List.length a <= 5).
  { destruct (search_amazon_products rt (user_input st0) w) as [r ta] eqn:E.
    simpl in Ea. subst r.
    exact (provider_contract_bounds _ _ _ _ _ _ _
             (search_amazon_products_contract rt (user_input st0) w) E). }
  assert (Hg : 1 <= List.length g <= 5).
  { destruct (search_google_shopping rt (user_input st0) w) as [r tg] eqn:E.
    simpl in Eg. subst r.
    exact (provider_contract_bounds _ _ _ _ _ _ _
             (search_google_shopping_contract rt (user_input st0) w) E). }
  split; [exact Ha|]. split; [exact Hg|]. split.
  - rewrite length_firstn, sorted_reverse_length, length_app. lia.
  - intros p Hp. apply ranked_incl in Hp. now apply in_app_or.
Qed.

Lemma search_amazon_products_down rt q w :
  provider_down (requests_get w (amazon_request w q)) ->
  fst (search_amazon_products rt q w) = Ok fallback_amazon.
Proof.
  unfold provider_down, search_amazon_products, try_except, bind, ask,
    http_get, lift, ret, emit.
  destruct (requests_get w (amazon_request w q)) as [resp|e]; simpl;
    [|reflexivity].
  intros H. apply Z.eqb_neq in H. now rewrite H.
Qed.

Lemma search_google_shopping_down rt q w :
  provider_down (requests_get w (google_request w q)) ->
  fst (search_google_shopping rt q w) = Ok fallback_google.
Proof.
  unfold provider_down, search_google_shopping, try_except, bind, ask,
    http_get, lift, ret, emit.
  destruct (requests_get w (google_request w q)) as [resp|e]; simpl;
    [|reflexivity].
  intros H. apply Z.eqb_neq in H. now rewrite H.
Qed.

(** X10: when both providers are down (each request raises or is answered
    with a status other than 200), a run still ends normally and ranks
    the fallback entries across the two providers: provider A's first
    entry (4.3), then provider B's second (4.2), then provider A's second
    (4.1); provider B's first fallback entry (4.0) is left out. *)
Theorem pipeline_outage rt st0 w :
  provider_down (requests_get w (amazon_request w (user_input st0))) ->
  provider_down (requests_get w (google_request w (user_input st0))) ->
  exists fa1 fa2 fg1 fg2 summary t,
    fallback_amazon = [fa1; fa2] /\ fallback_google = [fg1; fg2] /\
    invoke (graph rt) st0 w
    = (Ok (mkState (user_input st0) (Some fallback_amazon) (Some fallback_google)
                   (Some [fa1; fg2; fa2]) (Some summary)), t).
Proof.
  intros Ha Hg.
  apply (search_amazon_products_down rt) in Ha.
  apply (search_google_shopping_down rt) in Hg.
  destruct (invoke_final rt st0 w) as (a & g & t & Ea & Eg & _ & summary & Ei).
  rewrite Ha in Ea. injection Ea as <-. rewrite Hg in Eg. injection Eg as <-.
  do 4 eexists. exists summary, t.
  split; [reflexivity|]. split; [reflexivity|]. exact Ei.
Qed.

Lemma pipeline_outage_witness :
  exists fa1 fa2 fg1 fg2 summary t,
    fallback_amazon = [fa1; fa2] /\ fallback_google = [fg1; fg2] /\
    invoke (graph sample_runtime) (mkState "tv" None None None None) world_down
    = (Ok (mkState "tv" (Some fallback_amazon) (Some fallback_google)
                   (Some [fa1; fg2; fa2]) (Some summary)), t).
Proof.
  apply (pipeline_outage sample_runtime (mkState "tv" None None None None) world_down).
  - exact I.
  - simpl. discriminate.
Defined.

(** X12: running the graph again on the state it returned, in the same
    world, returns that same state and the same effects: the stale
    [ranked_products] and [output_summary] are recomputed to the same
    values. *)
Theorem pipeline_rerun rt st0 w st1 t1 :
  invoke (graph rt) st0 w = (Ok st1, t1) ->
  invoke (graph rt) st1 w = (Ok st1, t1).
Proof.
  intros H.
  destruct (invoke_pipeline rt st0 w)
    as (a & ta & g & tg & ranked & summary & Ea & Eg & Er & Ei).
  rewrite Ei in H. injection H as <- <-.
  destruct (invoke_pipeline rt (mkState (user_input st0) (Some a) (Some g)
                                        (Some ranked) (Some summary)) w)
    as (a' & ta' & g' & tg' & ranked' & summary' & Ea' & Eg' & Er' & Ei').
  cbn [user_input ranked_products output_summary] in *.
  rewrite Ea in Ea'. injection Ea' as <- <-.
  rewrite Eg in Eg'. injection Eg' as <- <-.
  change (rank_products rt (mkState (user_input st0) (Some a) (Some g)
                                    (Some ranked) (Some summary)))
    with (rank_products rt (mkState (user_input st0) (Some a) (Some g)
                                    (ranked_products st0) (output_summary st0)))
    in Er'.
  rewrite Er in Er'. injection Er' as <- <-.
  exact Ei'.
Qed.

Lemma pipeline_rerun_witness :
  exists st1 t1,
    invoke (graph sample_runtime) (mkState "iPhone 14" None None None None)
           world_scenario = (Ok st1, t1) /\
    invoke (graph sample_runtime) st1 world_scenario = (Ok st1, t1).
Proof.
  destruct (invoke (graph sample_runtime) (mkState "iPhone 14" None None None None)
                   world_scenario) as [[st1|e] t1] eqn:E.
  - exists st1, t1. split; [reflexivity|].
    exact (pipeline_rerun sample_runtime _ world_scenario st1 t1 E).
  - vm_compute in E. discriminate.
Defined.

(** ** The page *)

Lemma pipeline_events rt q w :
  exists st summary ta tg,
    invoke (graph rt) (mkState q None None None None) w
    = (Ok st, ([EvNode "extract_product"; EvNode "search_amazon"] ++ ta
               ++ [EvNode "search_google"] ++ tg ++ [EvNode "rank_products"])%list) /\
    output_summary st = Some summary /\
    (ta = [EvHttpGet (amazon_request w q)] \/
     exists e, ta = [EvHttpGet (amazon_request w q); EvPrint "[Amazon Error] " e]) /\
    (tg = [EvHttpGet (google_request w q)] \/
     exists e, tg = [EvHttpGet (google_request w q);
                     EvPrint "[Google Shopping Error] " e]).
Proof.
  destruct (invoke_pipeline rt (mkState q None None None None) w)
    as (a & ta & g & tg & ranked & summary & Ea & Eg & _ & Ei).
  cbn [user_input] in *.
  do 2 eexists. exists ta, tg. split; [exact Ei|]. split; [reflexivity|].
  pose proof (search_amazon_products_trace rt q w) as Ta.
  pose proof (search_google_shopping_trace rt q w) as Tg.
  rewrite Ea in Ta. rewrite Eg in Tg. simpl in Ta, Tg. now split.
Qed.

(** X11: the page never fails, whatever the query, the button and the
    providers do.  It sends exactly two requests (provider A's, then
    provider B's) when the button is pressed with a non-empty query, a
    query of blanks included, and none otherwise; it shows the warning
    exactly when the button is pressed with an empty query. *)
Theorem run_product_search_total rt q clicked w :
  fst (run_product_search rt q clicked w) = Ok tt /\
  network_calls (snd (run_product_search rt q clicked w))
  = (if clicked && negb (String.eqb q "")
     then [EvHttpGet (amazon_request w q); EvHttpGet (google_request w q)]
     else []) /\
  (In (EvWarning "Please enter a product query.")
      (snd (run_product_search rt q clicked w))
   <-> clicked = true /\ q = "").
Proof.
  destruct clicked.
  2:{ split; [reflexivity|]. split; [reflexivity|]. split.
      - simpl. intros [H|[H|[H|[]]]]; discriminate.
      - intros [H _]. discriminate. }
  destruct (String.eqb_spec q "") as [->|Hq].
  - split; [reflexivity|]. split; [reflexivity|]. split; [now split|].
    intros _. simpl. tauto.
  - destruct (pipeline_events rt q w)
      as (st & summary & ta & tg & Ei & Hs & Ta & Tg).
    assert (Ht : py_truthy (PStr q) = true).
    { simpl. destruct (String.eqb_spec q ""); [contradiction|reflexivity]. }
    unfold run_product_search. rewrite Ht.
    unfold bind, emit, lift. rewrite Ei, Hs. cbn [getitem fst snd andb negb].
    destruct Ta as [->|[ea ->]]; destruct Tg as [->|[eg ->]];
      (split; [reflexivity|]); (split; [reflexivity|]);
      (split; [simpl; intros H; exfalso;
               repeat (destruct H as [H|H]; [discriminate|]); exact H
              |intros [_ ?]; contradiction]).
Qed.
